(** * Clipping of high-order meshes against implicit shapes (dray::Clip)

    A shallow embedding of [clip.cpp], the implementation of
    [dray/filters/clip.hpp] (line numbers below refer to it): the
    function [normalize] (lines 27-37), the four distance-field
    evaluators ([SphereDistance], lines 40-105; [SinglePlaneDistance],
    lines 108-178; [MultiPlaneDistance], lines 181-276; [BoxDistance], lines
    279-415), the shape configuration [Clip::InternalsType] (lines 417-595)
    and the driver [Clip] with [Clip::execute] (lines 598-732); then the
    notions in which the properties are stated and the concrete inputs they
    are run on; then the properties.

    Conventions of the embedding:
    - [Float] is dray's build-time alias for [float] or [double]; its
      arithmetic, [sqrt], [min] and [max] are the operations of the class
      [FloatOps].  Two instances are given: IEEE binary64 (Rocq's primitive
      floats, which compute) and the real numbers (exact arithmetic).
    - A value of type [option A] is [None] when the source would read out of
      an array's bounds, dereference a null pointer, read an uninitialised
      variable or raise [DRAY_ERROR].
    - [int] is [Z], [size_t] is [nat], [std::string] is [string]. *)

From Stdlib Require Import ZArith Reals Lra Floats.
From stdpp Require Import gmap strings list fin_maps.

Local Open Scope Z_scope.

(** ** Float arithmetic *)

Class FloatOps (Float : Type) : Type := {
  fzero : Float;                        (* the literal [0.] *)
  fone : Float;                         (* the literal [1.] *)
  fopp : Float -> Float;                (* unary minus, as in [-1.] *)
  fadd : Float -> Float -> Float;
  fsub : Float -> Float -> Float;
  fmul : Float -> Float -> Float;
  fdiv : Float -> Float -> Float;
  fsqrt : Float -> Float;
  fgt : Float -> Float -> bool;         (* [a > b] *)
  fmin : Float -> Float -> Float;       (* dray's [min] *)
  fmax : Float -> Float -> Float        (* dray's [max] *)
}.

Declare Scope fl_scope.
Delimit Scope fl_scope with fl.
Infix "+" := fadd : fl_scope.
Infix "-" := fsub : fl_scope.
Infix "*" := fmul : fl_scope.
Infix "/" := fdiv : fl_scope.
Infix ">?" := fgt (at level 70) : fl_scope.

(** An order [fle] ("less than or equal") in which the properties of the
    code are stated; the code itself only compares with [fgt]. *)
Class FloatOrder (Float : Type) `{FloatOps Float} : Type := {
  fle : Float -> Float -> bool
}.

(** The order agrees with the comparison the code performs: nothing that is
    [<=] is also [>]. *)
Class FloatOrderLaws (Float : Type) `{FloatOrder Float} : Prop := {
  fle_not_fgt : forall x y : Float, fle x y = true -> fgt x y = false
}.

(** ** Vectors, matrices and bounds *)

Section Geometry.
Context {Float : Type}.

(** [Vec<Float, 3>] and [Float[3]]. *)
Record Vec3 : Type := mkVec3 { vec_0 : Float; vec_1 : Float; vec_2 : Float }.

(** [Float[3][3]] and [Vec<Vec<Float, 3>, 3>]: three rows. *)
Record Mat3 : Type := mkMat3 { row_0 : Vec3; row_1 : Vec3; row_2 : Vec3 }.

(** [m[i]]: a row index outside 0..2 is out of bounds. *)
Definition mat_row (m : Mat3) (i : nat) : option Vec3 :=
  match i with
  | 0%nat => Some (row_0 m)
  | 1%nat => Some (row_1 m)
  | 2%nat => Some (row_2 m)
  | _ => None
  end.

(** [Range]: one axis of a bounding box, read through [min()] and [max()]. *)
Record Range : Type := mkRange { range_min : Float; range_max : Float }.

(** [AABB<3>]: [m_ranges[0..2]]. *)
Record AABB : Type := mkAABB { m_ranges_0 : Range; m_ranges_1 : Range; m_ranges_2 : Range }.

(** [MultiPlaneDistance::to_dray_vec]: an entry-wise copy. *)
Definition to_dray_vec (mat : Mat3) : Mat3 :=
  mkMat3 (mkVec3 (vec_0 (row_0 mat)) (vec_1 (row_0 mat)) (vec_2 (row_0 mat)))
         (mkVec3 (vec_0 (row_1 mat)) (vec_1 (row_1 mat)) (vec_2 (row_1 mat)))
         (mkVec3 (vec_0 (row_2 mat)) (vec_1 (row_2 mat)) (vec_2 (row_2 mat))).
End Geometry.

Arguments Vec3 Float : clear implicits.
Arguments Mat3 Float : clear implicits.
Arguments Range Float : clear implicits.
Arguments AABB Float : clear implicits.

Section Normalize.
Context {Float : Type} `{FloatOps Float}.
Local Open Scope fl_scope.

(** The magnitude [normalize] computes:
    [sqrt(vec[0]*vec[0] + vec[1]*vec[1] + vec[2]*vec[2])]. *)
Definition magnitude (vec : Vec3 Float) : Float :=
  fsqrt (vec_0 vec * vec_0 vec + vec_1 vec * vec_1 vec + vec_2 vec * vec_2 vec).

(** [normalize(Vec<Float, 3> &vec)] (lines 27-37): the updated vector is
    returned. *)
Definition normalize (vec : Vec3 Float) : Vec3 Float :=
  let mag := magnitude vec in
  if mag >? fzero
  then mkVec3 (vec_0 vec / mag) (vec_1 vec / mag) (vec_2 vec / mag)
  else vec.

(** The expression every plane-based evaluator computes at a point [p]:
    [xterm + yterm + zterm] with [xterm = (px - origin[0]) * normal[0]]
    and likewise for y and z. *)
Definition plane_terms (px py pz : Float) (origin normal : Vec3 Float) : Float :=
  let xterm := (px - vec_0 origin) * vec_0 normal in
  let yterm := (py - vec_1 origin) * vec_1 normal in
  let zterm := (pz - vec_2 origin) * vec_2 normal in
  xterm + yterm + zterm.
End Normalize.

(** ** Meshes, fields, domains and collections

    These containers are declared outside [clip.cpp]; [clip.cpp] only calls
    them. *)

(** Modelled from the spec: [GridFunction<N>], the control-point (degree of
    freedom) data of a mesh or field: the element topology ([m_el_dofs],
    [m_size_el], [m_size_ctrl], [m_ctrl_idx]) and one value per control
    point ([m_values]), indexable by a dense point index. *)
Record GridFunction (A : Type) : Type := mkGridFunction {
  m_el_dofs : Z;
  m_size_el : Z;
  m_size_ctrl : Z;
  m_ctrl_idx : list Z;
  m_values : list A
}.
Arguments mkGridFunction {A}.
Arguments m_el_dofs {A}.
Arguments m_size_el {A}.
Arguments m_size_ctrl {A}.
Arguments m_ctrl_idx {A}.
Arguments m_values {A}.

Section Containers.
Context {Float : Type}.

(** Modelled from the spec: a mesh (coordinate field) exposes its name, its
    control-point coordinate array ([get_dof_data()]) and its element
    degree ([order()]). *)
Record Mesh : Type := mkMesh {
  mesh_name : string;
  mesh_order : Z;
  get_dof_data : GridFunction (Vec3 Float)
}.

(** Modelled from the spec: a scalar field, one value per control point,
    with a name ([name()]) and the name of the mesh it is tagged to
    ([mesh_name()]). *)
Record Field : Type := mkField {
  field_name : string;
  field_mesh_name : string;
  field_order : Z;
  field_dof_data : GridFunction Float
}.

(** [std::make_shared<UnstructuredField<FieldElemType>>(gf, order)]: the
    new field carries no name yet; [Clip::execute] names it before use. *)
Definition UnstructuredField (gf : GridFunction Float) (order : Z) : Field :=
  mkField EmptyString EmptyString order gf.

(** [f->name(n)] and [f->mesh_name(n)]. *)
Definition set_name (n : string) (f : Field) : Field :=
  mkField n (field_mesh_name f) (field_order f) (field_dof_data f).
Definition set_mesh_name (n : string) (f : Field) : Field :=
  mkField (field_name f) n (field_order f) (field_dof_data f).

(** Modelled from the spec: a domain owns zero or more named fields plus
    one mesh, which may be null; fields are added, removed and tested for
    presence by name. *)
Record DataSet : Type := mkDataSet {
  ds_mesh : option Mesh;
  ds_fields : gmap string Field
}.

(** The default-constructed [DataSet]: no mesh, no field. *)
Definition DataSet_empty : DataSet := mkDataSet None ∅.

Definition add_field (d : DataSet) (f : Field) : DataSet :=
  mkDataSet (ds_mesh d) (<[field_name f := f]> (ds_fields d)).
Definition has_field (d : DataSet) (n : string) : bool :=
  bool_decide (is_Some (ds_fields d !! n)).
Definition remove_field (d : DataSet) (n : string) : DataSet :=
  mkDataSet (ds_mesh d) (delete n (ds_fields d)).

(** Modelled from the spec: a collection owns an ordered sequence of
    domains; [add_domain] appends. *)
Definition Collection : Type := list DataSet.
Definition add_domain (c : Collection) (d : DataSet) : Collection := c ++ [d].

(** The part the four evaluators share: the output grid function copies
    the element topology of the mesh and holds one scalar per control
    point, and is wrapped as a field of the mesh's order. *)
Definition distance_field (mesh : Mesh) (values : list Float) : Field :=
  let mesh_gf := get_dof_data mesh in
  let gf := mkGridFunction (m_el_dofs mesh_gf) (m_size_el mesh_gf)
                           (m_size_ctrl mesh_gf) (m_ctrl_idx mesh_gf) values in
  UnstructuredField gf (mesh_order mesh).
End Containers.

Arguments Mesh Float : clear implicits.
Arguments Field Float : clear implicits.
Arguments DataSet Float : clear implicits.
Arguments Collection Float : clear implicits.

(** ** The distance-field evaluators

    Each evaluator is a class with a constructor ([new]) and an
    [operator()] ([call]) that [dispatch_3d] invokes on the typed mesh; the
    [RAJA::forall] over [0..ndofs) is a map over the control points.  [call]
    returns the field left in [m_output]. *)

Module SphereDistance.
Section Defs.
Context {Float : Type} `{FloatOps Float}.
Local Open Scope fl_scope.

Record t : Type := mk { m_center : Vec3 Float; m_radius : Float }.

Definition new (center : Vec3 Float) (radius : Float) : t :=
  mk (mkVec3 (vec_0 center) (vec_1 center) (vec_2 center)) radius.

(** The body of the lambda at one control point. *)
Definition point (center : Vec3 Float) (id_value : Vec3 Float) : Float :=
  let px := vec_0 id_value in
  let py := vec_1 id_value in
  let pz := vec_2 id_value in
  let dx := vec_0 center - px in
  let dy := vec_1 center - py in
  let dz := vec_2 center - pz in
  fsqrt (dx * dx + dy * dy + dz * dz).

Definition call (self : t) (mesh : Mesh Float) : Field Float :=
  distance_field mesh (map (point (m_center self)) (m_values (get_dof_data mesh))).
End Defs.
Arguments t Float : clear implicits.
End SphereDistance.

Module SinglePlaneDistance.
Section Defs.
Context {Float : Type} `{FloatOps Float}.

(** The member [m_invert] is never written nor read and is left out. *)
Record t : Type := mk { m_origin : Vec3 Float; m_normal : Vec3 Float }.

Definition new (origin normal : Vec3 Float) : t :=
  mk (mkVec3 (vec_0 origin) (vec_1 origin) (vec_2 origin))
     (normalize (mkVec3 (vec_0 normal) (vec_1 normal) (vec_2 normal))).

Definition point (origin normal : Vec3 Float) (id_value : Vec3 Float) : Float :=
  let px := vec_0 id_value in
  let py := vec_1 id_value in
  let pz := vec_2 id_value in
  plane_terms px py pz origin normal.

Definition call (self : t) (mesh : Mesh Float) : Field Float :=
  distance_field mesh
    (map (point (m_origin self) (m_normal self)) (m_values (get_dof_data mesh))).
End Defs.
Arguments t Float : clear implicits.
End SinglePlaneDistance.

Module MultiPlaneDistance.
Section Defs.
Context {Float : Type} `{FloatOps Float}.

Record t : Type := mk {
  m_origin : Mat3 Float;
  m_normal : Mat3 Float;
  m_planes : Z
}.

(** The constructor raises [DRAY_ERROR] for a plane count outside 1..3;
    all three rows of the normals are normalised, whatever the count. *)
Definition new (origin normal : Mat3 Float) (nplanes : Z) : option t :=
  let m_origin := to_dray_vec origin in
  let m_normal := to_dray_vec normal in
  if bool_decide (nplanes > 3 \/ nplanes < 1) then None
  else Some (mk m_origin
                (mkMat3 (normalize (row_0 m_normal))
                        (normalize (row_1 m_normal))
                        (normalize (row_2 m_normal)))
                nplanes).

(** One iteration of [for(int p = 0; p < nplanes; p++)]: [pdist] is
    [None] while it is uninitialised. *)
Definition plane_step (origin normal : Mat3 Float) (px py pz : Float)
    (pdist : option Float) (p : nat) : option Float :=
  o ← mat_row origin p;
  n ← mat_row normal p;
  let dist := plane_terms px py pz o n in
  if bool_decide (p = 0%nat) then Some dist
  else pd ← pdist; Some (fmin pd dist).

Definition point (origin normal : Mat3 Float) (nplanes : Z)
    (id_value : Vec3 Float) : option Float :=
  let px := vec_0 id_value in
  let py := vec_1 id_value in
  let pz := vec_2 id_value in
  foldl (plane_step origin normal px py pz) None (seq 0 (Z.to_nat nplanes)).

Definition call (self : t) (mesh : Mesh Float) : option (Field Float) :=
  values ← mapM (point (m_origin self) (m_normal self) (m_planes self))
                (m_values (get_dof_data mesh));
  Some (distance_field mesh values).
End Defs.
Arguments t Float : clear implicits.
End MultiPlaneDistance.

Module BoxDistance.
Section Defs.
Context {Float : Type} `{FloatOps Float}.

Record t : Type := mk { m_bounds : AABB Float }.

Definition new (bounds : AABB Float) : t := mk bounds.

(** The six blocks of the lambda, in the order xmin, xmax, ymin, ymax,
    zmin, zmax: each builds the face's origin and normal and evaluates the
    plane expression at the point. *)
Definition point (bounds : AABB Float) (id_value : Vec3 Float) : Float :=
  let px := vec_0 id_value in
  let py := vec_1 id_value in
  let pz := vec_2 id_value in
  let r0 := m_ranges_0 bounds in
  let r1 := m_ranges_1 bounds in
  let r2 := m_ranges_2 bounds in
  let dist :=
    plane_terms px py pz (mkVec3 (range_min r0) (range_min r1) (range_min r2))
                (mkVec3 (fopp fone) fzero fzero) in
  let dist := fmax dist
    (plane_terms px py pz (mkVec3 (range_max r0) (range_min r1) (range_min r2))
                 (mkVec3 fone fzero fzero)) in
  let dist := fmax dist
    (plane_terms px py pz (mkVec3 (range_min r0) (range_min r1) (range_min r2))
                 (mkVec3 fzero (fopp fone) fzero)) in
  let dist := fmax dist
    (plane_terms px py pz (mkVec3 (range_min r0) (range_max r1) (range_min r2))
                 (mkVec3 fzero fone fzero)) in
  let dist := fmax dist
    (plane_terms px py pz (mkVec3 (range_min r0) (range_min r1) (range_min r2))
                 (mkVec3 fzero fzero (fopp fone))) in
  let dist := fmax dist
    (plane_terms px py pz (mkVec3 (range_min r0) (range_min r1) (range_max r2))
                 (mkVec3 fzero fzero fone)) in
  dist.

Definition call (self : t) (mesh : Mesh Float) : Field Float :=
  distance_field mesh (map (point (m_bounds self)) (m_values (get_dof_data mesh))).
End Defs.
Arguments t Float : clear implicits.
End BoxDistance.


(** ** The shape configuration: [Clip::InternalsType] *)

Module InternalsType.
Section Defs.
Context {Float : Type} `{FloatOps Float}.

Record t : Type := mk {
  boxbounds : AABB Float;
  sphere_center : Vec3 Float;
  sphere_radius : Float;
  plane_origin : Mat3 Float;
  plane_normal : Mat3 Float;
  clip_mode : Z
}.

(** The constructor and the default member initialisers.  [AABB<3>]'s own
    default constructor is declared outside [clip.cpp]: its result is the
    argument [empty_bounds]. *)
Definition new (empty_bounds : AABB Float) : t :=
  mk empty_bounds
     (mkVec3 fzero fzero fzero)
     fone
     (mkMat3 (mkVec3 fzero fzero fzero) (mkVec3 fzero fzero fzero) (mkVec3 fzero fzero fzero))
     (mkMat3 (mkVec3 fone fzero fzero) (mkVec3 fzero fone fzero) (mkVec3 fzero fzero fone))
     2.

Definition SetBoxClip (bounds : AABB Float) (self : t) : t :=
  mk bounds (sphere_center self) (sphere_radius self)
     (plane_origin self) (plane_normal self) 0.

Definition SetSphereClip (center : Vec3 Float) (radius : Float) (self : t) : t :=
  mk (boxbounds self) (mkVec3 (vec_0 center) (vec_1 center) (vec_2 center)) radius
     (plane_origin self) (plane_normal self) 1.

(** A copy of the three components, as the setters write them. *)
Definition copy3 (v : Vec3 Float) : Vec3 Float :=
  mkVec3 (vec_0 v) (vec_1 v) (vec_2 v).

Definition SetPlaneClip (origin normal : Vec3 Float) (self : t) : t :=
  mk (boxbounds self) (sphere_center self) (sphere_radius self)
     (mkMat3 (copy3 origin) (row_1 (plane_origin self)) (row_2 (plane_origin self)))
     (mkMat3 (copy3 normal) (row_1 (plane_normal self)) (row_2 (plane_normal self)))
     2.

Definition Set2PlaneClip (origin1 normal1 origin2 normal2 : Vec3 Float) (self : t) : t :=
  mk (boxbounds self) (sphere_center self) (sphere_radius self)
     (mkMat3 (copy3 origin1) (copy3 origin2) (row_2 (plane_origin self)))
     (mkMat3 (copy3 normal1) (copy3 normal2) (row_2 (plane_normal self)))
     3.

Definition Set3PlaneClip (origin1 normal1 origin2 normal2 origin3 normal3 : Vec3 Float)
    (self : t) : t :=
  mk (boxbounds self) (sphere_center self) (sphere_radius self)
     (mkMat3 (copy3 origin1) (copy3 origin2) (copy3 origin3))
     (mkMat3 (copy3 normal1) (copy3 normal2) (copy3 normal3))
     4.

(** [num_passes] (lines 505-514). *)
Definition num_passes (self : t) (multipass : bool) : Z :=
  let passes := 1 in
  if bool_decide (clip_mode self = 3) && multipass then 2
  else if bool_decide (clip_mode self = 4) && multipass then 3
  else passes.

(** The [make_*_distances] methods return the field together with the value
    they write to the reference parameter [clip_value].  [dispatch_3d]
    dereferences [domain.mesh()] and applies the evaluator to it. *)
Definition make_box_distances (self : t) (domain : DataSet Float)
    : option (Field Float * Float) :=
  let distcalc := BoxDistance.new (boxbounds self) in
  mesh ← ds_mesh domain;
  let retval := BoxDistance.call distcalc mesh in
  Some (retval, fzero).

Definition make_sphere_distances (self : t) (domain : DataSet Float)
    : option (Field Float * Float) :=
  let distcalc := SphereDistance.new (sphere_center self) (sphere_radius self) in
  mesh ← ds_mesh domain;
  let retval := SphereDistance.call distcalc mesh in
  Some (retval, sphere_radius self).

Definition make_plane_distances (self : t) (domain : DataSet Float) (plane_index : nat)
    : option (Field Float * Float) :=
  o ← mat_row (plane_origin self) plane_index;
  n ← mat_row (plane_normal self) plane_index;
  let origin := mkVec3 (vec_0 o) (vec_1 o) (vec_2 o) in
  let normal := mkVec3 (vec_0 n) (vec_1 n) (vec_2 n) in
  let distcalc := SinglePlaneDistance.new origin normal in
  mesh ← ds_mesh domain;
  let retval := SinglePlaneDistance.call distcalc mesh in
  Some (retval, fzero).

Definition make_multi_plane_distances (self : t) (domain : DataSet Float)
    : option (Field Float * Float) :=
  distcalc ← MultiPlaneDistance.new (plane_origin self) (plane_normal self)
                                    (clip_mode self - 1);
  mesh ← ds_mesh domain;
  retval ← MultiPlaneDistance.call distcalc mesh;
  Some (retval, fzero).

(** [make_distances] (lines 568-586): for a [clip_mode] outside 0..4 no
    branch is taken and the null field pointer is returned ([None]). *)
Definition make_distances (self : t) (domain : DataSet Float) (multipass : bool)
    (pass : nat) : option (Field Float * Float) :=
  if bool_decide (clip_mode self = 0) then make_box_distances self domain
  else if bool_decide (clip_mode self = 1) then make_sphere_distances self domain
  else if bool_decide (clip_mode self = 2) then make_plane_distances self domain 0
  else if bool_decide (clip_mode self = 3 \/ clip_mode self = 4) then
    if multipass then make_plane_distances self domain pass
    else make_multi_plane_distances self domain
  else None.
End Defs.
Arguments t Float : clear implicits.
End InternalsType.

(** ** The element-clip collaborator: [ClipField] *)

Module ClipField.
Section Defs.
Context {Float : Type}.

(** Modelled from the spec: the element-clip filter accepts a field name, a
    clip threshold, an "exclude field from output" flag and an invert flag.
    [Clip::execute] sets all four on a fresh [ClipField] before it runs it. *)
Record t : Type := mk {
  m_clip_value : Float;
  m_field_name : string;
  m_exclude_clip_field : bool;
  m_invert : bool
}.
End Defs.
Arguments t Float : clear implicits.
End ClipField.

(** ** The driver: [Clip] *)

Module Clip.
Section Defs.
Context {Float : Type} `{FloatOps Float}.

(** [ClipField::execute], the external element-clip filter: any function
    from a configured filter and a domain to a new domain. *)
Variable ClipField_execute : ClipField.t Float -> DataSet Float -> DataSet Float.

Record t : Type := mk {
  m_internals : InternalsType.t Float;
  m_invert : bool;
  m_do_multi_plane : bool
}.

Definition new (empty_bounds : AABB Float) : t :=
  mk (InternalsType.new empty_bounds) false false.

Definition SetBoxClip (bounds : AABB Float) (self : t) : t :=
  mk (InternalsType.SetBoxClip bounds (m_internals self))
     (m_invert self) (m_do_multi_plane self).

Definition SetSphereClip (center : Vec3 Float) (radius : Float) (self : t) : t :=
  mk (InternalsType.SetSphereClip center radius (m_internals self))
     (m_invert self) (m_do_multi_plane self).

Definition SetPlaneClip (origin normal : Vec3 Float) (self : t) : t :=
  mk (InternalsType.SetPlaneClip origin normal (m_internals self))
     (m_invert self) (m_do_multi_plane self).

Definition Set2PlaneClip (origin1 normal1 origin2 normal2 : Vec3 Float) (self : t) : t :=
  mk (InternalsType.Set2PlaneClip origin1 normal1 origin2 normal2 (m_internals self))
     (m_invert self) (m_do_multi_plane self).

Definition Set3PlaneClip (origin1 normal1 origin2 normal2 origin3 normal3 : Vec3 Float)
    (self : t) : t :=
  mk (InternalsType.Set3PlaneClip origin1 normal1 origin2 normal2 origin3 normal3
        (m_internals self))
     (m_invert self) (m_do_multi_plane self).

Definition SetInvertClip (invert : bool) (self : t) : t :=
  mk (m_internals self) invert (m_do_multi_plane self).

Definition SetMultiPlane (value : bool) (self : t) : t :=
  mk (m_internals self) (m_invert self) value.

(** [std::string field_name("__dray_clip_field__")]. *)
Definition field_name : string := "__dray_clip_field__".

(** The four settings [execute] gives the [ClipField] of a pass (lines
    700-709). *)
Definition make_clipper (self : t) (clip_value : Float) : ClipField.t Float :=
  ClipField.mk clip_value field_name true
    (if bool_decide (InternalsType.clip_mode (m_internals self) = 1)
     then negb (m_invert self)
     else m_invert self).

(** [if(d.has_field(field_name)) d.remove_field(field_name);] (lines
    713-716). *)
Definition remove_clip_field (d : DataSet Float) : DataSet Float :=
  if has_field d field_name then remove_field d field_name else d.

(** The clipping field of a pass and its clip value (lines 674-677): the
    result of [make_distances] on [dom], tagged to the mesh of [dom] and
    given the scratch name. *)
Definition make_clip_field (self : t) (dom : DataSet Float) (pass : nat)
    : option (Field Float * Float) :=
  '(f, clip_value) ← InternalsType.make_distances (m_internals self) dom
                        (m_do_multi_plane self) pass;
  mesh ← ds_mesh dom;
  let f := set_mesh_name (mesh_name mesh) f in
  let f := set_name field_name f in
  Some (f, clip_value).

(** The body of [for(size_t pass = 0; pass < npasses; pass++)] (lines
    671-720), on the local variables [input] and [output]. *)
Definition pass_body (self : t) (dom : DataSet Float)
    (vars : DataSet Float * DataSet Float) (pass : nat)
    : option (DataSet Float * DataSet Float) :=
  let '(input, output) := vars in
  '(f, clip_value) ← make_clip_field self dom pass;
  let input := add_field input f in
  let clipper := make_clipper self clip_value in
  let output := ClipField_execute clipper input in
  let input := remove_clip_field input in
  let output := remove_clip_field output in
  let input := output in
  Some (input, output).

(** The passes of one domain with a mesh (lines 668-727): the value of
    [output] that is added to the result. *)
Definition clip_domain (self : t) (dom : DataSet Float) : option (DataSet Float) :=
  let npasses := Z.to_nat (InternalsType.num_passes (m_internals self)
                                                    (m_do_multi_plane self)) in
  let input := dom in
  let output := DataSet_empty in
  '(_, output) ← foldl (fun vars pass => vars ← vars; pass_body self dom vars pass)
                       (Some (input, output)) (seq 0 npasses);
  Some output.

(** [Clip::execute] (lines 657-732): the loop over the local domains of the
    collection; a domain whose mesh is null is skipped. *)
Definition execute (self : t) (collection : Collection Float)
    : option (Collection Float) :=
  foldl (fun res dom =>
           res ← res;
           match ds_mesh dom with
           | Some _ => output ← clip_domain self dom; Some (add_domain res output)
           | None => Some res
           end)
        (Some []) collection.
End Defs.
Arguments t Float : clear implicits.
End Clip.


(** ** Two arithmetics for [Float] *)

(** IEEE 754 binary64, the [double] build of dray: Rocq's primitive floats.
    dray's own [min] and [max] are declared outside [clip.cpp]; this
    instance takes those of the C++ standard library. *)
#[export] Instance float_ops : FloatOps float := {|
  fzero := 0%float;
  fone := 1%float;
  fopp := PrimFloat.opp;
  fadd := PrimFloat.add;
  fsub := PrimFloat.sub;
  fmul := PrimFloat.mul;
  fdiv := PrimFloat.div;
  fsqrt := PrimFloat.sqrt;
  fgt := fun a b => PrimFloat.ltb b a;
  fmin := fun a b => if PrimFloat.ltb b a then b else a;
  fmax := fun a b => if PrimFloat.ltb a b then b else a
|}.

(** Exact arithmetic: the real numbers. *)
#[export] Instance R_ops : FloatOps R := {|
  fzero := 0%R;
  fone := 1%R;
  fopp := Ropp;
  fadd := Rplus;
  fsub := Rminus;
  fmul := Rmult;
  fdiv := Rdiv;
  fsqrt := R_sqrt.sqrt;
  fgt := fun a b => if Rlt_dec b a then true else false;
  fmin := Rmin;
  fmax := Rmax
|}.

#[export] Instance float_order : FloatOrder float := {| fle := PrimFloat.leb |}.

#[export] Instance R_order : FloatOrder R :=
  {| fle := fun x y => if Rle_dec x y then true else false |}.

(** ** The pipeline as the specification words it

    The specification computes the distance field of a pass from
    [currentInput], the output of the previous pass.  These two definitions
    follow its steps 3a-3e; they differ from [Clip.pass_body] and
    [Clip.clip_domain] only in the domain handed to [make_clip_field]. *)

Section SpecPipeline.
Context {Float : Type} `{FloatOps Float}.
Variable ClipField_execute : ClipField.t Float -> DataSet Float -> DataSet Float.

Definition spec_pass_body (self : Clip.t Float)
    (vars : DataSet Float * DataSet Float) (pass : nat)
    : option (DataSet Float * DataSet Float) :=
  let '(currentInput, output) := vars in
  '(f, clip_value) ← Clip.make_clip_field self currentInput pass;
  let currentInput := add_field currentInput f in
  let output := ClipField_execute (Clip.make_clipper self clip_value) currentInput in
  let output := Clip.remove_clip_field output in
  Some (output, output).

Definition spec_clip_domain (self : Clip.t Float) (dom : DataSet Float)
    : option (DataSet Float) :=
  let passes := Z.to_nat (InternalsType.num_passes (Clip.m_internals self)
                                                   (Clip.m_do_multi_plane self)) in
  '(_, output) ← foldl (fun vars pass => vars ← vars; spec_pass_body self vars pass)
                       (Some (dom, DataSet_empty)) (seq 0 passes);
  Some output.
End SpecPipeline.

(** ** The notions of the properties *)

Section Notions.
Context {Float : Type} `{FloatOps Float}.

(** A [Clip] object is a fresh one on which any sequence of setters was
    called. *)
Inductive reachable : Clip.t Float -> Prop :=
| reach_new empty_bounds :
    reachable (Clip.new empty_bounds)
| reach_box bounds c :
    reachable c -> reachable (Clip.SetBoxClip bounds c)
| reach_sphere center radius c :
    reachable c -> reachable (Clip.SetSphereClip center radius c)
| reach_plane origin normal c :
    reachable c -> reachable (Clip.SetPlaneClip origin normal c)
| reach_2plane o1 n1 o2 n2 c :
    reachable c -> reachable (Clip.Set2PlaneClip o1 n1 o2 n2 c)
| reach_3plane o1 n1 o2 n2 o3 n3 c :
    reachable c -> reachable (Clip.Set3PlaneClip o1 n1 o2 n2 o3 n3 c)
| reach_invert b c :
    reachable c -> reachable (Clip.SetInvertClip b c)
| reach_multi b c :
    reachable c -> reachable (Clip.SetMultiPlane b c).

(** The domains of a collection that [execute] clips: those with a mesh. *)
Definition with_mesh (collection : Collection Float) : Collection Float :=
  List.filter (fun dom => match ds_mesh dom with Some _ => true | None => false end)
              collection.

(** The least of a non-empty list of values, taken from left to right with
    dray's [min]; the greatest likewise with [max]. *)
Definition min_of (d : Float) (ds : list Float) : Float := foldl fmin d ds.
Definition max_of (d : Float) (ds : list Float) : Float := foldl fmax d ds.

(** The three (origin, normal) pairs of a plane configuration, in order. *)
Definition planes_of (origin normal : Mat3 Float) : list (Vec3 Float * Vec3 Float) :=
  [ (row_0 origin, row_0 normal); (row_1 origin, row_1 normal);
    (row_2 origin, row_2 normal) ].

(** The value the [SinglePlaneDistance] evaluator built for one plane writes
    at a point: [dot (point - origin, normalized normal)]. *)
Definition single_plane_value (plane : Vec3 Float * Vec3 Float) (pt : Vec3 Float) : Float :=
  let distcalc := SinglePlaneDistance.new (fst plane) (snd plane) in
  SinglePlaneDistance.point (SinglePlaneDistance.m_origin distcalc)
                            (SinglePlaneDistance.m_normal distcalc) pt.

(** The minimum of a list, [None] when the list is empty. *)
Definition min_list (l : list Float) : option Float :=
  match l with
  | [] => None
  | d :: ds => Some (min_of d ds)
  end.

(** The minimum over the first [nplanes] planes of the single-plane signed
    distances at a point. *)
Definition min_over_planes (origin normal : Mat3 Float) (nplanes : Z)
    (pt : Vec3 Float) : option Float :=
  min_list (map (fun plane => single_plane_value plane pt)
                (take (Z.to_nat nplanes) (planes_of origin normal))).

(** The six faces of a box as the [BoxDistance] lambda builds them: a point
    of the face and its outward unit normal. *)
Definition box_faces (bounds : AABB Float) : list (Vec3 Float * Vec3 Float) :=
  let r0 := m_ranges_0 bounds in
  let r1 := m_ranges_1 bounds in
  let r2 := m_ranges_2 bounds in
  [ (mkVec3 (range_min r0) (range_min r1) (range_min r2), mkVec3 (fopp fone) fzero fzero);
    (mkVec3 (range_max r0) (range_min r1) (range_min r2), mkVec3 fone fzero fzero);
    (mkVec3 (range_min r0) (range_min r1) (range_min r2), mkVec3 fzero (fopp fone) fzero);
    (mkVec3 (range_min r0) (range_max r1) (range_min r2), mkVec3 fzero fone fzero);
    (mkVec3 (range_min r0) (range_min r1) (range_min r2), mkVec3 fzero fzero (fopp fone));
    (mkVec3 (range_min r0) (range_min r1) (range_max r2), mkVec3 fzero fzero fone) ].

(** The maximum of a list, [None] when the list is empty. *)
Definition max_list (l : list Float) : option Float :=
  match l with
  | [] => None
  | d :: ds => Some (max_of d ds)
  end.
End Notions.

(** ** The box in exact arithmetic *)

Section BoxNotions.
Local Open Scope R_scope.

(** The six half-space signed distances of a box at a point, in the order
    xmin, xmax, ymin, ymax, zmin, zmax: the projection of the vector from
    the face to the point on the outward unit normal of the face. *)
Definition half_space_distances (bounds : AABB R) (pt : Vec3 R) : list R :=
  [ range_min (m_ranges_0 bounds) - vec_0 pt; vec_0 pt - range_max (m_ranges_0 bounds);
    range_min (m_ranges_1 bounds) - vec_1 pt; vec_1 pt - range_max (m_ranges_1 bounds);
    range_min (m_ranges_2 bounds) - vec_2 pt; vec_2 pt - range_max (m_ranges_2 bounds) ].

(** A coordinate strictly between the bounds of its axis. *)
Definition interior_on (r : Range R) (x : R) : Prop :=
  range_min r < x < range_max r.


Definition strictly_inside (bounds : AABB R) (pt : Vec3 R) : Prop :=
  interior_on (m_ranges_0 bounds) (vec_0 pt) /\
  interior_on (m_ranges_1 bounds) (vec_1 pt) /\
  interior_on (m_ranges_2 bounds) (vec_2 pt).


End BoxNotions.

(** ** Concrete inputs

    A unit cube of eight control points, a two-plane multi-pass
    configuration, and a stand-in for the external element-clip filter, on
    which the pipeline can be run. *)

Module Example.
Import PrimFloat.

(** A stand-in for [ClipField::execute] that treats a mesh as a cloud of
    control points: points and scratch values are paired by position, and a
    point is kept when its value is smaller than the clip value (when it is
    not, if the filter is inverted).  The clip field is left out of the
    output when the filter is told to exclude it. *)
Definition point_cloud_clip (clipper : ClipField.t float) (input : DataSet float)
    : DataSet float :=
  match ds_mesh input, ds_fields input !! ClipField.m_field_name clipper with
  | Some mesh, Some f =>
      let gf := get_dof_data mesh in
      let keep := fun (pv : Vec3 float * float) =>
        xorb (ClipField.m_invert clipper)
             (PrimFloat.ltb (snd pv) (ClipField.m_clip_value clipper)) in
      let kept := map fst (List.filter keep
                    (zip (m_values gf) (m_values (field_dof_data f)))) in
      mkDataSet
        (Some (mkMesh (mesh_name mesh) (mesh_order mesh)
                 (mkGridFunction (m_el_dofs gf) (m_size_el gf) (m_size_ctrl gf)
                                 (m_ctrl_idx gf) kept)))
        (if ClipField.m_exclude_clip_field clipper
         then delete (ClipField.m_field_name clipper) (ds_fields input)
         else ds_fields input)
  | _, _ => input
  end.

(** The default-constructed bounds of the binary64 build: every range is
    empty. *)
Definition empty_bounds : AABB float :=
  let r := mkRange infinity neg_infinity in mkAABB r r r.

(** The corners of the unit cube, x varying fastest. *)
Definition cube_points : list (Vec3 float) :=
  [ mkVec3 0 0 0; mkVec3 1 0 0; mkVec3 0 1 0; mkVec3 1 1 0;
    mkVec3 0 0 1; mkVec3 1 0 1; mkVec3 0 1 1; mkVec3 1 1 1 ]%float.

Definition cube_mesh : Mesh float :=
  mkMesh "coords" 1 (mkGridFunction 8 1 8 [0; 1; 2; 3; 4; 5; 6; 7] cube_points).

Definition cube : DataSet float := mkDataSet (Some cube_mesh) ∅.

(** A domain without a mesh. *)
Definition meshless : DataSet float := mkDataSet None ∅.

Definition half : Vec3 float := mkVec3 0.5%float 0.5%float 0.5%float.

(** Two planes through the centre of the cube, with normals along x and y,
    clipped in two passes. *)
Definition two_planes : Clip.t float :=
  Clip.SetMultiPlane true
    (Clip.Set2PlaneClip half (mkVec3 1 0 0)%float half (mkVec3 0 1 0)%float
       (Clip.new empty_bounds)).

(** The unit-cube domain restricted to some of its control points. *)
Definition cube_with (points : list (Vec3 float)) : DataSet float :=
  mkDataSet
    (Some (mkMesh "coords" 1 (mkGridFunction 8 1 8 [0; 1; 2; 3; 4; 5; 6; 7] points)))
    ∅.

(** The scalars of a clipping field. *)
Definition field_values (r : option (Field float * float)) : option (list float) :=
  '(f, _) ← r; Some (m_values (field_dof_data f)).

(** The four corners with x = 0, which the first pass keeps. *)
Definition x0_corners : list (Vec3 float) :=
  [ mkVec3 0 0 0; mkVec3 0 1 0; mkVec3 0 0 1; mkVec3 0 1 1 ]%float.
End Example.

(** The same in exact arithmetic: a box and three control points. *)

Module ExactExample.
Local Open Scope R_scope.

(** The unit box [0,1]^3 and three points: its centre, the centre of its
    face x = 0, and a point beyond its face x = 1. *)
Definition unit_box : AABB R :=
  mkAABB (mkRange 0 1) (mkRange 0 1) (mkRange 0 1).
Definition beyond : Vec3 R := mkVec3 2 (1/2) (1/2).
End ExactExample.

(** ** Further notions *)

Section LayoutNotions.
Context {Float : Type}.

(** A field laid out like a mesh: the same element topology, the same
    order, and one scalar per control point. *)
Definition same_layout (mesh : Mesh Float) (f : Field Float) : Prop :=
  m_el_dofs (field_dof_data f) = m_el_dofs (get_dof_data mesh) /\
  m_size_el (field_dof_data f) = m_size_el (get_dof_data mesh) /\
  m_size_ctrl (field_dof_data f) = m_size_ctrl (get_dof_data mesh) /\
  m_ctrl_idx (field_dof_data f) = m_ctrl_idx (get_dof_data mesh) /\
  field_order f = mesh_order mesh /\
  length (m_values (field_dof_data f)) = length (m_values (get_dof_data mesh)).
End LayoutNotions.

Section ExactNotions.
Local Open Scope R_scope.

(** A vector scaled by a factor, and a point moved along a vector. *)
Definition vec_scale (k : R) (v : Vec3 R) : Vec3 R :=
  mkVec3 (k * vec_0 v) (k * vec_1 v) (k * vec_2 v).
Definition vec_add (p v : Vec3 R) : Vec3 R :=
  mkVec3 (vec_0 p + vec_0 v) (vec_1 p + vec_1 v) (vec_2 p + vec_2 v).

(** The square of the Euclidean distance between two points. *)
Definition sq_dist (p q : Vec3 R) : R :=
  (vec_0 p - vec_0 q) * (vec_0 p - vec_0 q) +
  (vec_1 p - vec_1 q) * (vec_1 p - vec_1 q) +
  (vec_2 p - vec_2 q) * (vec_2 p - vec_2 q).

(** A point of the closed box: within the bounds on every axis. *)
Definition in_closed_box (bounds : AABB R) (pt : Vec3 R) : Prop :=
  range_min (m_ranges_0 bounds) <= vec_0 pt <= range_max (m_ranges_0 bounds) /\
  range_min (m_ranges_1 bounds) <= vec_1 pt <= range_max (m_ranges_1 bounds) /\
  range_min (m_ranges_2 bounds) <= vec_2 pt <= range_max (m_ranges_2 bounds).
End ExactNotions.

(** ** The setters of [vtkh::Streamline]

    The inline member functions of the class declaration in
    [vtkh/filters/Streamline.hpp]; [double] and [vtkm::Particle] are type
    parameters.  The constructor and the [Filter] overrides are declared
    only. *)

Module Streamline.
Section Defs.
Context {Double Particle : Type}.

Record t : Type := mk {
  m_field_name : string;
  m_output_field_name : string;
  m_tubes : bool;
  m_tube_capping : bool;
  m_radius_set : bool;
  m_tube_value : Double;
  m_tube_size : Double;
  m_tube_sides : Double;
  m_step_size : Double;
  m_num_steps : Z;
  m_seeds : list Particle
}.

Definition GetName (self : t) : string := "vtkh::Streamline".

Definition SetField (field_name : string) (self : t) : t :=
  mk field_name (m_output_field_name self) (m_tubes self) (m_tube_capping self)
     (m_radius_set self) (m_tube_value self) (m_tube_size self) (m_tube_sides self)
     (m_step_size self) (m_num_steps self) (m_seeds self).

Definition SetStepSize (step_size : Double) (self : t) : t :=
  mk (m_field_name self) (m_output_field_name self) (m_tubes self) (m_tube_capping self)
     (m_radius_set self) (m_tube_value self) (m_tube_size self) (m_tube_sides self)
     step_size (m_num_steps self) (m_seeds self).

Definition SetSeeds (seeds : list Particle) (self : t) : t :=
  mk (m_field_name self) (m_output_field_name self) (m_tubes self) (m_tube_capping self)
     (m_radius_set self) (m_tube_value self) (m_tube_size self) (m_tube_sides self)
     (m_step_size self) (m_num_steps self) seeds.

Definition SetNumberOfSteps (numSteps : Z) (self : t) : t :=
  mk (m_field_name self) (m_output_field_name self) (m_tubes self) (m_tube_capping self)
     (m_radius_set self) (m_tube_value self) (m_tube_size self) (m_tube_sides self)
     (m_step_size self) numSteps (m_seeds self).

Definition SetOutputField (output_field_name : string) (self : t) : t :=
  mk (m_field_name self) output_field_name (m_tubes self) (m_tube_capping self)
     (m_radius_set self) (m_tube_value self) (m_tube_size self) (m_tube_sides self)
     (m_step_size self) (m_num_steps self) (m_seeds self).

Definition SetTubes (tubes : bool) (self : t) : t :=
  mk (m_field_name self) (m_output_field_name self) tubes (m_tube_capping self)
     (m_radius_set self) (m_tube_value self) (m_tube_size self) (m_tube_sides self)
     (m_step_size self) (m_num_steps self) (m_seeds self).

Definition SetTubeCapping (capping : bool) (self : t) : t :=
  mk (m_field_name self) (m_output_field_name self) (m_tubes self) capping
     (m_radius_set self) (m_tube_value self) (m_tube_size self) (m_tube_sides self)
     (m_step_size self) (m_num_steps self) (m_seeds self).

Definition SetTubeValue (val : Double) (self : t) : t :=
  mk (m_field_name self) (m_output_field_name self) (m_tubes self) (m_tube_capping self)
     (m_radius_set self) val (m_tube_size self) (m_tube_sides self)
     (m_step_size self) (m_num_steps self) (m_seeds self).

(** [{m_tube_size = size; m_radius_set = true;}] *)
Definition SetTubeSize (size : Double) (self : t) : t :=
  mk (m_field_name self) (m_output_field_name self) (m_tubes self) (m_tube_capping self)
     true (m_tube_value self) size (m_tube_sides self)
     (m_step_size self) (m_num_steps self) (m_seeds self).

Definition SetTubeSides (sides : Double) (self : t) : t :=
  mk (m_field_name self) (m_output_field_name self) (m_tubes self) (m_tube_capping self)
     (m_radius_set self) (m_tube_value self) (m_tube_size self) sides
     (m_step_size self) (m_num_steps self) (m_seeds self).

(** One call of a setter, and a sequence of calls applied in order. *)
Inductive call : Type :=
| CallSetField (field_name : string)
| CallSetStepSize (step_size : Double)
| CallSetSeeds (seeds : list Particle)
| CallSetNumberOfSteps (numSteps : Z)
| CallSetOutputField (output_field_name : string)
| CallSetTubes (tubes : bool)
| CallSetTubeCapping (capping : bool)
| CallSetTubeValue (val : Double)
| CallSetTubeSize (size : Double)
| CallSetTubeSides (sides : Double).

Definition perform (self : t) (c : call) : t :=
  match c with
  | CallSetField n => SetField n self
  | CallSetStepSize s => SetStepSize s self
  | CallSetSeeds s => SetSeeds s self
  | CallSetNumberOfSteps n => SetNumberOfSteps n self
  | CallSetOutputField n => SetOutputField n self
  | CallSetTubes b => SetTubes b self
  | CallSetTubeCapping b => SetTubeCapping b self
  | CallSetTubeValue v => SetTubeValue v self
  | CallSetTubeSize s => SetTubeSize s self
  | CallSetTubeSides s => SetTubeSides s self
  end.

Definition perform_all (self : t) (calls : list call) : t := foldl perform self calls.

(** The sizes given to [SetTubeSize] in a sequence of calls, in order. *)
Definition tube_sizes (calls : list call) : list Double :=
  omap (fun c => match c with CallSetTubeSize s => Some s | _ => None end) calls.
End Defs.
Arguments t Double Particle : clear implicits.
Arguments call Double Particle : clear implicits.
End Streamline.

(** ** Further concrete inputs *)

Module ExactInputs.
Local Open Scope R_scope.

(** Two planes through the origin with normals along x and y, the third row
    left at the axis z; a vector of magnitude 5; a mesh of two points. *)
Definition zero : Vec3 R := mkVec3 0 0 0.
Definition origins : Mat3 R := mkMat3 zero zero zero.
Definition normals : Mat3 R := mkMat3 (mkVec3 1 0 0) (mkVec3 0 1 0) (mkVec3 0 0 1).
Definition three_four : Vec3 R := mkVec3 3 4 0.
Definition axis_z : Vec3 R := mkVec3 0 0 1.
Definition two_points : Mesh R :=
  mkMesh "coords" 1 (mkGridFunction 2 1 2 [0; 1]%Z [mkVec3 1 (-1) 0; mkVec3 2 3 0]).
End ExactInputs.

Module FloatInputs.
(** The multi-plane evaluator of [Example.two_planes] over its two planes. *)
Definition two_plane_evaluator : MultiPlaneDistance.t float :=
  let i := Clip.m_internals Example.two_planes in
  MultiPlaneDistance.mk (InternalsType.plane_origin i)
    (mkMat3 (normalize (row_0 (InternalsType.plane_normal i)))
            (normalize (row_1 (InternalsType.plane_normal i)))
            (normalize (row_2 (InternalsType.plane_normal i))))
    2.
End FloatInputs.

(** ** The signed distance to a plane and the minimum, as the specification
    words them

    Written from the words of the specification, independently of the
    evaluators: the dot product of [point - origin] with the normalised
    normal, where a normal is normalised by dividing it by its length and a
    normal of length zero is left as it is; and the minimum of a list as its
    least element. *)

Section SignedDistance.
Context {Float : Type} `{FloatOrder Float}.
Local Open Scope fl_scope.

Definition spec_sub (p q : Vec3 Float) : Vec3 Float :=
  mkVec3 (vec_0 p - vec_0 q) (vec_1 p - vec_1 q) (vec_2 p - vec_2 q).

Definition spec_dot (a b : Vec3 Float) : Float :=
  vec_0 a * vec_0 b + vec_1 a * vec_1 b + vec_2 a * vec_2 b.

Definition spec_length (v : Vec3 Float) : Float := fsqrt (spec_dot v v).

Definition spec_normalized (v : Vec3 Float) : Vec3 Float :=
  if spec_length v >? fzero
  then mkVec3 (vec_0 v / spec_length v) (vec_1 v / spec_length v) (vec_2 v / spec_length v)
  else v.

(** [dot (point - origin, normalized normal)] for a plane given as the pair
    of its origin and normal. *)
Definition signed_distance (plane : Vec3 Float * Vec3 Float) (pt : Vec3 Float) : Float :=
  spec_dot (spec_sub pt (fst plane)) (spec_normalized (snd plane)).

(** A value that takes part in the order: it is [<=] itself.  On binary64
    these are the values that are not NaN; every real number is. *)
Definition ordered (x : Float) : Prop := fle x x = true.

(** [v] is the minimum of the list [l]: one of its elements, and [<=] each
    of them. *)
Definition is_minimum_of (v : Float) (l : list Float) : Prop :=
  v ∈ l /\ Forall (fun x => fle v x = true) l.
End SignedDistance.

(** The contract of dray's [min] (declared in [math.hpp], outside the
    source): on ordered values it returns one of its two arguments, and that
    one is [<=] both; [<=] is transitive. *)
Class FloatMinLaws (Float : Type) `{FloatOrder Float} : Prop := {
  fle_trans : forall x y z : Float, fle x y = true -> fle y z = true -> fle x z = true;
  fmin_choice : forall a b : Float, fmin a b = a \/ fmin a b = b;
  fmin_le_l : forall a b : Float, ordered a -> ordered b -> fle (fmin a b) a = true;
  fmin_le_r : forall a b : Float, ordered a -> ordered b -> fle (fmin a b) b = true
}.

(** ** Boxes with infinite bounds on binary64 *)

Module FloatBoxes.
Import PrimFloat.




(** The origin, which lies outside the empty box [Example.empty_bounds]. *)
Definition origin : Vec3 float := (mkVec3 0 0 0)%float.
End FloatBoxes.

(** * Properties *)

(** ** Comparisons of the two arithmetics *)

Lemma SFleb_not_SFltb (x y : spec_float) : SFleb x y = true -> SFltb y x = false.
Proof.
  unfold SFleb, SFltb.
  destruct x as [sx|sx| |sx mx ex], y as [sy|sy| |sy my ey]; simpl;
    try discriminate; try reflexivity;
    repeat match goal with s : bool |- _ => destruct s end; simpl;
    try discriminate; try reflexivity;
    rewrite (Z.compare_antisym ex ey);
    destruct (ex ?= ey)%Z; simpl; try discriminate; try reflexivity;
    change (PosDef.Pos.compare_cont Eq my mx) with (Pos.compare my mx);
    change (PosDef.Pos.compare_cont Eq mx my) with (Pos.compare mx my);
    rewrite (Pos.compare_antisym mx my);
    destruct (mx ?= my)%positive; simpl; try discriminate; reflexivity.
Qed.

Lemma float_leb_not_gt (x y : float) :
  PrimFloat.leb x y = true -> fgt x y = false.
Proof. simpl. rewrite leb_spec, ltb_spec. apply SFleb_not_SFltb. Qed.

Lemma R_le_not_gt (x y : R) :
  (if Rle_dec x y then true else false) = true -> fgt x y = false.
Proof.
  simpl. destruct (Rle_dec x y); [intros _ | discriminate].
  destruct (Rlt_dec y x); [lra | reflexivity].
Qed.

#[export] Instance float_order_laws : FloatOrderLaws float.
Proof. split. exact float_leb_not_gt. Qed.

#[export] Instance R_order_laws : FloatOrderLaws R.
Proof. split. exact R_le_not_gt. Qed.

(** ** Properties of [normalize] *)

Section NormalizeProperties.
Context {Float : Type} `{FloatOrderLaws Float}.
Local Open Scope fl_scope.

(** C9. [normalize] leaves a vector whose magnitude is [<= 0] unchanged (no
    division takes place), and divides each component of a vector of
    positive magnitude by the magnitude.  This holds in every arithmetic
    whose [<=] and [>] exclude each other, IEEE binary64 and the reals
    among them. *)
Theorem normalize_degenerate_or_scaled (vec : Vec3 Float) :
  (fle (magnitude vec) fzero = true -> normalize vec = vec) /\
  ((magnitude vec >? fzero) = true ->
   normalize vec = mkVec3 (vec_0 vec / magnitude vec)
                          (vec_1 vec / magnitude vec)
                          (vec_2 vec / magnitude vec)).
Proof.
  unfold normalize. split; intros Hmag.
  - apply fle_not_fgt in Hmag. now rewrite Hmag.
  - now rewrite Hmag.
Qed.
End NormalizeProperties.

(** On binary64: the zero vector is returned as it is, and (3, 4, 0), of
    magnitude 5, is scaled to (0.6, 0.8, 0). *)
Lemma normalize_degenerate_or_scaled_witness :
  normalize (mkVec3 0 0 0)%float = (mkVec3 0 0 0)%float /\
  normalize (mkVec3 3 4 0)%float = (mkVec3 (3 / 5) (4 / 5) (0 / 5))%float.
Proof.
  split.
  - apply (proj1 (normalize_degenerate_or_scaled (mkVec3 0 0 0)%float)).
    vm_compute. reflexivity.
  - assert (Hpos : (magnitude (mkVec3 3 4 0)%float >? fzero)%fl = true)
      by (vm_compute; reflexivity).
    pose proof (proj2 (normalize_degenerate_or_scaled (mkVec3 3 4 0)%float) Hpos) as E.
    vm_compute in E |- *. exact E.
Defined.

(** ** Properties of the shape configuration *)

Section ConfigurationProperties.
Context {Float : Type} `{FloatOps Float}.

Lemma copy3_id (v : Vec3 Float) : InternalsType.copy3 v = v.
Proof. now destruct v. Qed.

Lemma mkVec3_eta (v : Vec3 Float) : mkVec3 (vec_0 v) (vec_1 v) (vec_2 v) = v.
Proof. now destruct v. Qed.

(** Every reachable configuration has a [clip_mode] in 0..4. *)
Lemma reachable_clip_mode (c : Clip.t Float) :
  reachable c -> 0 <= InternalsType.clip_mode (Clip.m_internals c) <= 4.
Proof. induction 1; simpl; lia. Qed.

(** [num_passes] is 1, 2 or 3, whatever the configuration. *)
Lemma num_passes_range (i : InternalsType.t Float) (multipass : bool) :
  1 <= InternalsType.num_passes i multipass <= 3.
Proof.
  unfold InternalsType.num_passes.
  repeat case_bool_decide; destruct multipass; simpl; lia.
Qed.

(** C4. The number of passes is 1 for the box, the sphere and the single
    plane (also the default configuration), whatever [multipass]; for two
    planes it is 2 when [multipass] and 1 otherwise; for three planes it is
    3 when [multipass] and 1 otherwise. *)
Theorem num_passes_by_shape
    (i : InternalsType.t Float) (multipass : bool) (empty_bounds bounds : AABB Float)
    (center : Vec3 Float) (radius : Float) (o1 n1 o2 n2 o3 n3 : Vec3 Float) :
  InternalsType.num_passes (InternalsType.new empty_bounds) multipass = 1 /\
  InternalsType.num_passes (InternalsType.SetBoxClip bounds i) multipass = 1 /\
  InternalsType.num_passes (InternalsType.SetSphereClip center radius i) multipass = 1 /\
  InternalsType.num_passes (InternalsType.SetPlaneClip o1 n1 i) multipass = 1 /\
  InternalsType.num_passes (InternalsType.Set2PlaneClip o1 n1 o2 n2 i) multipass
    = (if multipass then 2 else 1) /\
  InternalsType.num_passes (InternalsType.Set3PlaneClip o1 n1 o2 n2 o3 n3 i) multipass
    = (if multipass then 3 else 1).
Proof. destruct multipass; repeat split; reflexivity. Qed.


(** The order in which the invert option and the shape are set is
    immaterial. *)
Lemma SetInvertClip_commutes (c : Clip.t Float) (invert : bool) bounds center radius
    o1 n1 o2 n2 o3 n3 :
  Clip.SetInvertClip invert (Clip.SetSphereClip center radius c)
    = Clip.SetSphereClip center radius (Clip.SetInvertClip invert c) /\
  Clip.SetInvertClip invert (Clip.SetBoxClip bounds c)
    = Clip.SetBoxClip bounds (Clip.SetInvertClip invert c) /\
  Clip.SetInvertClip invert (Clip.SetPlaneClip o1 n1 c)
    = Clip.SetPlaneClip o1 n1 (Clip.SetInvertClip invert c) /\
  Clip.SetInvertClip invert (Clip.Set2PlaneClip o1 n1 o2 n2 c)
    = Clip.Set2PlaneClip o1 n1 o2 n2 (Clip.SetInvertClip invert c) /\
  Clip.SetInvertClip invert (Clip.Set3PlaneClip o1 n1 o2 n2 o3 n3 c)
    = Clip.Set3PlaneClip o1 n1 o2 n2 o3 n3 (Clip.SetInvertClip invert c).
Proof. repeat split; reflexivity. Qed.
End ConfigurationProperties.

(** ** Properties of the evaluators *)

Section EvaluatorProperties.
Context {Float : Type} `{FloatOps Float}.

Lemma to_dray_vec_id (m : Mat3 Float) : to_dray_vec m = m.
Proof. destruct m as [[] [] []]. reflexivity. Qed.

(** The constructor accepts exactly the plane counts 1, 2 and 3. *)
Lemma MultiPlaneDistance_new_ok (origin normal : Mat3 Float) (nplanes : Z) :
  1 <= nplanes <= 3 ->
  MultiPlaneDistance.new origin normal nplanes
  = Some (MultiPlaneDistance.mk origin
            (mkMat3 (normalize (row_0 normal)) (normalize (row_1 normal))
                    (normalize (row_2 normal)))
            nplanes).
Proof.
  intros Hn. unfold MultiPlaneDistance.new.
  rewrite !to_dray_vec_id. rewrite bool_decide_eq_false_2 by lia. reflexivity.
Qed.

Lemma MultiPlaneDistance_new_error (origin normal : Mat3 Float) (nplanes : Z) :
  nplanes < 1 \/ 3 < nplanes ->
  MultiPlaneDistance.new origin normal nplanes = None.
Proof.
  intros Hn. unfold MultiPlaneDistance.new.
  rewrite bool_decide_eq_true_2 by lia. reflexivity.
Qed.

(** The loop over the planes computes the minimum of the single-plane
    values, for 1, 2 and 3 planes. *)
Lemma multi_plane_point_min (origin normal : Mat3 Float) (nplanes : Z) (pt : Vec3 Float) :
  1 <= nplanes <= 3 ->
  MultiPlaneDistance.point origin
    (mkMat3 (normalize (row_0 normal)) (normalize (row_1 normal))
            (normalize (row_2 normal)))
    nplanes pt
  = min_over_planes origin normal nplanes pt.
Proof.
  intros Hn.
  assert (Hcases : nplanes = 1 \/ nplanes = 2 \/ nplanes = 3) by lia.
  destruct origin as [[] [] []], normal as [[] [] []].
  destruct Hcases as [-> | [-> | ->]]; reflexivity.
Qed.

(** The evaluator succeeds on every mesh and writes that minimum at every
    control point. *)
Lemma multi_plane_call_min (origin normal : Mat3 Float) (nplanes : Z) (mesh : Mesh Float) :
  1 <= nplanes <= 3 ->
  exists distcalc fld,
    MultiPlaneDistance.new origin normal nplanes = Some distcalc /\
    MultiPlaneDistance.call distcalc mesh = Some fld /\
    fld = distance_field mesh (m_values (field_dof_data fld)) /\
    Forall2 (fun pt v => min_over_planes origin normal nplanes pt = Some v)
            (m_values (get_dof_data mesh)) (m_values (field_dof_data fld)).
Proof.
  intros Hn.
  assert (Htotal : forall pt, is_Some (min_over_planes origin normal nplanes pt)).
  { intros pt. unfold min_over_planes.
    assert (Hcases : nplanes = 1 \/ nplanes = 2 \/ nplanes = 3) by lia.
    destruct Hcases as [-> | [-> | ->]]; simpl; eauto. }
  set (points := m_values (get_dof_data mesh)).
  assert (Hvals : exists values,
            Forall2 (fun pt v => min_over_planes origin normal nplanes pt = Some v)
                    points values).
  { induction points as [|pt pts [vs IH]]; [exists []; constructor|].
    destruct (Htotal pt) as [v Hv]. exists (v :: vs). now constructor. }
  destruct Hvals as [values Hvals].
  eexists _, (distance_field mesh values).
  split; [apply MultiPlaneDistance_new_ok; exact Hn|].
  split; [|split; [reflexivity | exact Hvals]].
  unfold MultiPlaneDistance.call. simpl.
  assert (HmapM : mapM (MultiPlaneDistance.point origin
                   (mkMat3 (normalize (row_0 normal)) (normalize (row_1 normal))
                           (normalize (row_2 normal))) nplanes) points = Some values).
  { apply mapM_Some. eapply Forall2_impl; [exact Hvals|].
    intros pt v Hv. simpl in Hv. now rewrite multi_plane_point_min. }
  fold points. rewrite HmapM. reflexivity.
Qed.


(** In every arithmetic the box value at a point is the maximum over the
    six faces of the projection of [point - face point] on the face's
    normal. *)
Lemma box_point_max_of_faces (bounds : AABB Float) (pt : Vec3 Float) :
  max_list (map (fun face => SinglePlaneDistance.point (fst face) (snd face) pt)
                (box_faces bounds))
  = Some (BoxDistance.point bounds pt).
Proof. reflexivity. Qed.
End EvaluatorProperties.

(** ** The order of binary64 and of the reals, and dray's [min] *)

Lemma Pos_compare_cont_Eq (p q : positive) :
  PosDef.Pos.compare_cont Eq p q = Pos.compare p q.
Proof. reflexivity. Qed.

Ltac sf_compare_cases :=
  repeat match goal with
         | H : context [PosDef.Pos.compare_cont Eq ?p ?q] |- _ =>
             rewrite (Pos_compare_cont_Eq p q) in H
         | |- context [PosDef.Pos.compare_cont Eq ?p ?q] =>
             rewrite (Pos_compare_cont_Eq p q)
         end;
  repeat match goal with
         | H : context [(?a ?= ?b)%Z] |- _ => destruct (Z.compare_spec a b)
         | |- context [(?a ?= ?b)%Z] => destruct (Z.compare_spec a b)
         end;
  repeat match goal with
         | H : context [(?a ?= ?b)%positive] |- _ => destruct (Pos.compare_spec a b)
         | |- context [(?a ?= ?b)%positive] => destruct (Pos.compare_spec a b)
         end;
  simpl in *; try discriminate; try reflexivity; try lia.

Lemma SFleb_trans (x y z : spec_float) :
  SFleb x y = true -> SFleb y z = true -> SFleb x z = true.
Proof.
  unfold SFleb.
  destruct x as [sx|sx| |sx mx ex], y as [sy|sy| |sy my ey], z as [sz|sz| |sz mz ez];
    simpl; try discriminate; try reflexivity;
    repeat match goal with s : bool |- _ => destruct s end; simpl;
    try discriminate; try reflexivity.
  all: intros H1 H2; sf_compare_cases.
Qed.

Lemma SFltb_SFleb (x y : spec_float) : SFltb x y = true -> SFleb x y = true.
Proof. unfold SFltb, SFleb. now destruct (SFcompare x y) as [[]|]. Qed.

Lemma SFleb_of_not_SFltb (x y : spec_float) :
  SFleb x x = true -> SFleb y y = true -> SFltb y x = false -> SFleb x y = true.
Proof.
  unfold SFleb, SFltb.
  destruct x as [sx|sx| |sx mx ex], y as [sy|sy| |sy my ey];
    simpl; try discriminate; try reflexivity;
    repeat match goal with s : bool |- _ => destruct s end; simpl;
    try discriminate; try reflexivity.
  all: intros H1 H2 H3; sf_compare_cases.
Qed.

(** On binary64, with the [min] of the C++ standard library. *)
#[export] Instance float_min_laws : FloatMinLaws float.
Proof.
  split.
  - intros x y z. simpl. rewrite !leb_spec. apply SFleb_trans.
  - intros a b. simpl. destruct (PrimFloat.ltb b a); auto.
  - intros a b Ha Hb. unfold ordered in *. simpl in *.
    destruct (PrimFloat.ltb b a) eqn:Hlt; [|exact Ha].
    rewrite leb_spec. rewrite ltb_spec in Hlt. now apply SFltb_SFleb.
  - intros a b Ha Hb. unfold ordered in *. simpl in *.
    destruct (PrimFloat.ltb b a) eqn:Hlt; [exact Hb|].
    rewrite leb_spec in *. rewrite ltb_spec in Hlt. now apply SFleb_of_not_SFltb.
Qed.

(** On the reals, with [Rmin]. *)
#[export] Instance R_min_laws : FloatMinLaws R.
Proof.
  split.
  - intros x y z. simpl.
    destruct (Rle_dec x y), (Rle_dec y z), (Rle_dec x z);
      try discriminate; try reflexivity. lra.
  - intros a b. simpl. unfold Rmin. destruct (Rle_dec a b); auto.
  - intros a b _ _. simpl. destruct (Rle_dec (Rmin a b) a) as [|Hn]; [reflexivity|].
    exfalso. apply Hn, Rmin_l.
  - intros a b _ _. simpl. destruct (Rle_dec (Rmin a b) b) as [|Hn]; [reflexivity|].
    exfalso. apply Hn, Rmin_r.
Qed.

Lemma R_ordered (x : R) : ordered x.
Proof. unfold ordered. simpl. destruct (Rle_dec x x) as [|Hn]; [reflexivity | lra]. Qed.

(** ** The fused planes against the signed distance of the specification *)

Section FusedMinimum.
Context {Float : Type} `{FloatMinLaws Float}.

(** The evaluator of one plane computes the signed distance of the
    specification. *)
Lemma single_plane_value_is_signed_distance (plane : Vec3 Float * Vec3 Float)
    (pt : Vec3 Float) :
  single_plane_value plane pt = signed_distance plane pt.
Proof. destruct plane as [[ox oy oz] [nx ny nz]]. reflexivity. Qed.

Lemma fmin_ordered (a b : Float) : ordered a -> ordered b -> ordered (fmin a b).
Proof. intros Ha Hb. destruct (fmin_choice a b) as [-> | ->]; assumption. Qed.

(** Folding dray's [min] over ordered values from the left yields their
    minimum. *)
Lemma foldl_fmin_is_minimum (ds : list Float) (d : Float) :
  Forall ordered (d :: ds) -> is_minimum_of (foldl fmin d ds) (d :: ds).
Proof.
  revert d. induction ds as [|x ds IH]; intros d Hord.
  - apply Forall_cons in Hord as [Hd _]. split; [left|].
    apply Forall_cons. split; [exact Hd | constructor].
  - apply Forall_cons in Hord as [Hd Hord].
    apply Forall_cons in Hord as [Hx Hds]. simpl.
    destruct (IH (fmin d x)) as [Hin Hall].
    { apply Forall_cons. split; [now apply fmin_ordered | exact Hds]. }
    apply Forall_cons in Hall as [Hhead Hall].
    split.
    + apply elem_of_cons in Hin as [Heq | Hin].
      * rewrite Heq, !elem_of_cons. destruct (fmin_choice d x) as [-> | ->]; auto.
      * rewrite !elem_of_cons. auto.
    + apply Forall_cons. split.
      * eapply fle_trans; [exact Hhead | now apply fmin_le_l].
      * apply Forall_cons. split; [|exact Hall].
        eapply fle_trans; [exact Hhead | now apply fmin_le_r].
Qed.

Lemma min_list_is_minimum (l : list Float) (v : Float) :
  min_list l = Some v -> Forall ordered l -> is_minimum_of v l.
Proof.
  destruct l as [|d ds]; simpl; [discriminate|]. intros [= <-].
  apply foldl_fmin_is_minimum.
Qed.
End FusedMinimum.

Section FusedMinimumClaim.
Context {Float : Type} `{FloatMinLaws Float}.

(** C5. For a plane count N in 1..3 the [MultiPlaneDistance] evaluator is
    constructed and runs on every mesh, and the scalar it writes at every
    control point is dray's [min] folded over the signed distances
    [dot (point - origin_p, normalized normal_p)] of the first N planes, as
    the specification words them; whenever these distances are ordered
    (none is NaN) the scalar is their minimum: one of them, and [<=] each
    of them.  dray's [min] enters by its contract [FloatMinLaws], which
    binary64 and the reals satisfy. *)
Theorem multi_plane_is_min_of_single_planes
    (origin normal : Mat3 Float) (nplanes : Z) (mesh : Mesh Float) :
  1 <= nplanes <= 3 ->
  exists distcalc fld,
    MultiPlaneDistance.new origin normal nplanes = Some distcalc /\
    MultiPlaneDistance.call distcalc mesh = Some fld /\
    Forall2 (fun pt v =>
               let distances :=
                 map (fun plane => signed_distance plane pt)
                     (take (Z.to_nat nplanes) (planes_of origin normal)) in
               min_list distances = Some v /\
               (Forall ordered distances -> is_minimum_of v distances))
            (m_values (get_dof_data mesh)) (m_values (field_dof_data fld)).
Proof.
  intros Hn.
  destruct (multi_plane_call_min origin normal nplanes mesh Hn)
    as (distcalc & fld & Hnew & Hcall & _ & Hvals).
  exists distcalc, fld. split; [exact Hnew|]. split; [exact Hcall|].
  eapply Forall2_impl; [exact Hvals|].
  intros pt v Hmin. unfold min_over_planes in Hmin.
  assert (Hsame : map (fun plane => single_plane_value plane pt)
                      (take (Z.to_nat nplanes) (planes_of origin normal))
                  = map (fun plane => signed_distance plane pt)
                        (take (Z.to_nat nplanes) (planes_of origin normal))).
  { apply map_ext. intros plane. apply single_plane_value_is_signed_distance. }
  rewrite Hsame in Hmin. simpl. split; [exact Hmin|].
  intros Hord. now apply min_list_is_minimum.
Qed.
End FusedMinimumClaim.

(** ** The box evaluator in exact arithmetic *)

Section BoxProperties.
Local Open Scope R_scope.

Lemma box_point_half_spaces (bounds : AABB R) (pt : Vec3 R) :
  max_list (half_space_distances bounds pt) = Some (BoxDistance.point bounds pt).
Proof.
  unfold max_list, half_space_distances, max_of, BoxDistance.point, plane_terms.
  simpl. f_equal. repeat (apply f_equal2); ring.
Qed.





End BoxProperties.

(** ** Minimum and maximum in exact arithmetic

    With [Rmin] and [Rmax] for dray's [min] and [max], [min_list] is the
    least element of the list and [max_list] the greatest. *)

Section ExactExtrema.
Local Open Scope R_scope.

Lemma foldl_Rmin_least (ds : list R) (d : R) :
  foldl Rmin d ds ∈ d :: ds /\ Forall (fun x => foldl Rmin d ds <= x) (d :: ds).
Proof.
  revert d. induction ds as [|x ds IH]; intros d; simpl.
  - split; [left | apply Forall_cons; split; [lra | constructor]].
  - destruct (IH (Rmin d x)) as [Hin Hall].
    apply Forall_cons in Hall as [Hhead Hall].
    pose proof (Rmin_l d x). pose proof (Rmin_r d x).
    split.
    + apply elem_of_cons in Hin as [Heq | Hin].
      * rewrite Heq, !elem_of_cons. unfold Rmin. destruct (Rle_dec d x); auto.
      * rewrite !elem_of_cons. auto.
    + apply Forall_cons; split; [lra|]. apply Forall_cons; split; [lra | exact Hall].
Qed.

Lemma foldl_Rmax_greatest (ds : list R) (d : R) :
  foldl Rmax d ds ∈ d :: ds /\ Forall (fun x => x <= foldl Rmax d ds) (d :: ds).
Proof.
  revert d. induction ds as [|x ds IH]; intros d; simpl.
  - split; [left | apply Forall_cons; split; [lra | constructor]].
  - destruct (IH (Rmax d x)) as [Hin Hall].
    apply Forall_cons in Hall as [Hhead Hall].
    pose proof (Rmax_l d x). pose proof (Rmax_r d x).
    split.
    + apply elem_of_cons in Hin as [Heq | Hin].
      * rewrite Heq, !elem_of_cons. unfold Rmax. destruct (Rle_dec d x); auto.
      * rewrite !elem_of_cons. auto.
    + apply Forall_cons; split; [lra|]. apply Forall_cons; split; [lra | exact Hall].
Qed.

Lemma min_list_is_least (l : list R) (v : R) :
  min_list l = Some v -> v ∈ l /\ Forall (fun x => v <= x) l.
Proof.
  destruct l as [|d ds]; simpl; [discriminate|]. intros [= <-].
  apply foldl_Rmin_least.
Qed.

Lemma max_list_is_greatest (l : list R) (v : R) :
  max_list l = Some v -> v ∈ l /\ Forall (fun x => x <= v) l.
Proof.
  destruct l as [|d ds]; simpl; [discriminate|]. intros [= <-].
  apply foldl_Rmax_greatest.
Qed.
End ExactExtrema.

(** ** Properties of the dispatch on the shape *)

Section DispatchProperties.
Context {Float : Type} `{FloatOps Float}.

(** The fused multi-plane branch: the evaluator is built over the
    configured planes with [clip_mode - 1] planes. *)
Lemma make_multi_plane_distances_ok (i : InternalsType.t Float) (mesh : Mesh Float)
    (fields : gmap string (Field Float)) :
  2 <= InternalsType.clip_mode i <= 4 ->
  exists distcalc fld,
    MultiPlaneDistance.new (InternalsType.plane_origin i) (InternalsType.plane_normal i)
                           (InternalsType.clip_mode i - 1) = Some distcalc /\
    MultiPlaneDistance.call distcalc mesh = Some fld /\
    InternalsType.make_multi_plane_distances i (mkDataSet (Some mesh) fields)
    = Some (fld, fzero).
Proof.
  intros Hmode.
  destruct (multi_plane_call_min (InternalsType.plane_origin i)
              (InternalsType.plane_normal i) (InternalsType.clip_mode i - 1) mesh)
    as (distcalc & fld & Hnew & Hcall & _); [lia|].
  exists distcalc, fld. repeat split; try assumption.
  unfold InternalsType.make_multi_plane_distances.
  rewrite Hnew. simpl. rewrite Hcall. reflexivity.
Qed.

(** C3. [make_distances] on a domain with a mesh: the box, the sphere and
    the single plane run their own evaluator whatever [pass] and
    [multipass]; two or three planes with [multipass] run the
    [SinglePlaneDistance] evaluator on the plane at index [pass]; two or
    three planes without [multipass] run the [MultiPlaneDistance] evaluator
    over the configured planes (2, respectively 3 of them) whatever [pass].
    The clip value is 0 for the box and every plane-based shape and the
    configured radius for the sphere. *)
Theorem make_distances_dispatch
    (i : InternalsType.t Float) (mesh : Mesh Float) (fields : gmap string (Field Float))
    (multipass : bool) (pass : nat) (bounds : AABB Float)
    (center : Vec3 Float) (radius : Float) (o1 n1 o2 n2 o3 n3 : Vec3 Float) :
  let domain := mkDataSet (Some mesh) fields in
  let two := InternalsType.Set2PlaneClip o1 n1 o2 n2 i in
  let three := InternalsType.Set3PlaneClip o1 n1 o2 n2 o3 n3 i in
  let single o n := Some (SinglePlaneDistance.call (SinglePlaneDistance.new o n) mesh, fzero) in
  let fused cfg nplanes :=
    exists distcalc fld,
      MultiPlaneDistance.new (InternalsType.plane_origin cfg)
                             (InternalsType.plane_normal cfg) nplanes = Some distcalc /\
      MultiPlaneDistance.call distcalc mesh = Some fld /\
      InternalsType.make_distances cfg domain false pass = Some (fld, fzero) in
  InternalsType.make_distances (InternalsType.SetBoxClip bounds i) domain multipass pass
    = Some (BoxDistance.call (BoxDistance.new bounds) mesh, fzero) /\
  InternalsType.make_distances (InternalsType.SetSphereClip center radius i) domain
                               multipass pass
    = Some (SphereDistance.call (SphereDistance.new center radius) mesh, radius) /\
  InternalsType.make_distances (InternalsType.SetPlaneClip o1 n1 i) domain multipass pass
    = single o1 n1 /\
  InternalsType.make_distances two domain true 0 = single o1 n1 /\
  InternalsType.make_distances two domain true 1 = single o2 n2 /\
  InternalsType.make_distances three domain true 0 = single o1 n1 /\
  InternalsType.make_distances three domain true 1 = single o2 n2 /\
  InternalsType.make_distances three domain true 2 = single o3 n3 /\
  fused two 2 /\
  fused three 3.
Proof.
  intros domain two three single fused.
  destruct center, o1, n1, o2, n2, o3, n3.
  repeat (split; [reflexivity|]).
  split.
  - destruct (make_multi_plane_distances_ok two mesh fields) as (dc & fld & Hn & Hc & Hm);
      [simpl; lia|].
    exists dc, fld. repeat split; assumption.
  - destruct (make_multi_plane_distances_ok three mesh fields) as (dc & fld & Hn & Hc & Hm);
      [simpl; lia|].
    exists dc, fld. repeat split; assumption.
Qed.
End DispatchProperties.

(** ** Properties of the driver *)

Section PipelineProperties.
Context {Float : Type} `{FloatOps Float}.
Variable ClipField_execute : ClipField.t Float -> DataSet Float -> DataSet Float.

Local Abbreviation pass_body := (Clip.pass_body ClipField_execute).
Local Abbreviation clip_domain := (Clip.clip_domain ClipField_execute).
Local Abbreviation execute := (Clip.execute ClipField_execute).

Lemma has_field_remove_clip_field (d : DataSet Float) :
  has_field (Clip.remove_clip_field d) Clip.field_name = false.
Proof.
  unfold Clip.remove_clip_field.
  destruct (has_field d Clip.field_name) eqn:Hd; [|exact Hd].
  unfold has_field, remove_field. simpl.
  rewrite lookup_delete_eq. apply bool_decide_eq_false_2. intros [x Hx]. discriminate.
Qed.

(** On a domain with a mesh, [make_distances] yields a field for every
    shape [clip_mode] in 0..4 and every plane index [pass] below 3. *)
Lemma make_distances_is_Some (i : InternalsType.t Float) (dom : DataSet Float)
    (multipass : bool) (pass : nat) :
  0 <= InternalsType.clip_mode i <= 4 ->
  is_Some (ds_mesh dom) ->
  (pass < 3)%nat ->
  is_Some (InternalsType.make_distances i dom multipass pass).
Proof.
  intros Hmode [mesh Hmesh] Hpass.
  destruct dom as [m fields]. simpl in Hmesh. subst m.
  unfold InternalsType.make_distances.
  repeat case_bool_decide; try lia.
  - unfold InternalsType.make_box_distances. simpl. eauto.
  - unfold InternalsType.make_sphere_distances. simpl. eauto.
  - unfold InternalsType.make_plane_distances. simpl. eauto.
  - destruct multipass.
    + unfold InternalsType.make_plane_distances.
      destruct pass as [|[|[|pass]]]; simpl; eauto. lia.
    + destruct (make_multi_plane_distances_ok i mesh fields) as (dc & fld & _ & _ & Hm);
        [lia|].
      rewrite Hm. eauto.
Qed.

Lemma make_clip_field_is_Some (c : Clip.t Float) (dom : DataSet Float) (pass : nat) :
  0 <= InternalsType.clip_mode (Clip.m_internals c) <= 4 ->
  is_Some (ds_mesh dom) ->
  (pass < 3)%nat ->
  is_Some (Clip.make_clip_field c dom pass).
Proof.
  intros Hmode Hmesh Hpass. unfold Clip.make_clip_field.
  destruct (make_distances_is_Some (Clip.m_internals c) dom (Clip.m_do_multi_plane c)
              pass Hmode Hmesh Hpass) as [[f cv] Hf].
  rewrite Hf. destruct Hmesh as [mesh Hmesh]. rewrite Hmesh. simpl. eauto.
Qed.

(** A pass that completes leaves the same domain in [input] and [output],
    without the scratch field. *)
Lemma pass_body_result (c : Clip.t Float) (dom : DataSet Float)
    (vars vars' : DataSet Float * DataSet Float) (pass : nat) :
  pass_body c dom vars pass = Some vars' ->
  fst vars' = snd vars' /\ has_field (snd vars') Clip.field_name = false.
Proof.
  unfold Clip.pass_body. destruct vars as [input output].
  destruct (Clip.make_clip_field c dom pass) as [[f cv]|]; simpl; [|discriminate].
  intros [= <-]. simpl. split; [reflexivity | apply has_field_remove_clip_field].
Qed.

Lemma pass_body_is_Some (c : Clip.t Float) (dom : DataSet Float)
    (vars : DataSet Float * DataSet Float) (pass : nat) :
  0 <= InternalsType.clip_mode (Clip.m_internals c) <= 4 ->
  is_Some (ds_mesh dom) ->
  (pass < 3)%nat ->
  is_Some (pass_body c dom vars pass).
Proof.
  intros Hmode Hmesh Hpass. unfold Clip.pass_body. destruct vars as [input output].
  destruct (make_clip_field_is_Some c dom pass Hmode Hmesh Hpass) as [[f cv] Hf].
  rewrite Hf. simpl. eauto.
Qed.

(** The loop over the passes completes, and after at least one pass
    [output] does not hold the scratch field. *)
Lemma passes_complete (c : Clip.t Float) (dom : DataSet Float) (npasses : nat)
    (vars : DataSet Float * DataSet Float) :
  0 <= InternalsType.clip_mode (Clip.m_internals c) <= 4 ->
  is_Some (ds_mesh dom) ->
  (npasses <= 3)%nat ->
  exists vars',
    foldl (fun vars pass => vars ← vars; pass_body c dom vars pass)
          (Some vars) (seq 0 npasses) = Some vars' /\
    ((1 <= npasses)%nat -> has_field (snd vars') Clip.field_name = false).
Proof.
  intros Hmode Hmesh. induction npasses as [|n IH]; intros Hn.
  - exists vars. split; [reflexivity | lia].
  - destruct IH as (vars1 & Hfold & _); [lia|].
    rewrite seq_S, foldl_app, Hfold. simpl.
    destruct (pass_body_is_Some c dom vars1 n Hmode Hmesh) as [vars2 Hbody]; [lia|].
    exists vars2. split; [exact Hbody|]. intros _.
    apply (pass_body_result c dom vars1 vars2 n Hbody).
Qed.

(** Every domain with a mesh is clipped, and its result does not hold the
    scratch field. *)
Lemma clip_domain_complete (c : Clip.t Float) (dom : DataSet Float) :
  0 <= InternalsType.clip_mode (Clip.m_internals c) <= 4 ->
  is_Some (ds_mesh dom) ->
  exists output,
    clip_domain c dom = Some output /\ has_field output Clip.field_name = false.
Proof.
  intros Hmode Hmesh. unfold Clip.clip_domain.
  pose proof (num_passes_range (Clip.m_internals c) (Clip.m_do_multi_plane c)) as Hn.
  destruct (passes_complete c dom
              (Z.to_nat (InternalsType.num_passes (Clip.m_internals c)
                                                  (Clip.m_do_multi_plane c)))
              (dom, DataSet_empty) Hmode Hmesh) as ([input output] & Hfold & Hclean); [lia|].
  rewrite Hfold. simpl. exists output. split; [reflexivity|]. apply Hclean. lia.
Qed.

(** [execute] on an accumulated result: the outputs of the domains with a
    mesh are appended in order. *)
Lemma execute_from (c : Clip.t Float) (collection acc : Collection Float) :
  0 <= InternalsType.clip_mode (Clip.m_internals c) <= 4 ->
  exists outputs,
    foldl (fun res dom =>
             res ← res;
             match ds_mesh dom with
             | Some _ => output ← clip_domain c dom; Some (add_domain res output)
             | None => Some res
             end)
          (Some acc) collection = Some (acc ++ outputs) /\
    Forall2 (fun dom output =>
               clip_domain c dom = Some output /\
               has_field output Clip.field_name = false)
            (with_mesh collection) outputs.
Proof.
  intros Hmode. revert acc.
  induction collection as [|dom doms IH]; intros acc.
  - exists []. simpl. rewrite app_nil_r. split; [reflexivity | constructor].
  - simpl. destruct (ds_mesh dom) as [mesh|] eqn:Hmesh.
    + destruct (clip_domain_complete c dom Hmode) as (output & Hout & Hclean);
        [rewrite Hmesh; eauto|].
      rewrite Hout. simpl.
      destruct (IH (add_domain acc output)) as (outputs & Hfold & Hall).
      exists (output :: outputs). split.
      * rewrite Hfold. unfold add_domain. now rewrite <- app_assoc.
      * now constructor.
    + exact (IH acc).
Qed.

(** C8. For every configuration the interface can produce, [execute]
    returns a collection built from scratch that holds, in the order of the
    input, exactly one output domain for each input domain with a mesh (the
    result of clipping that domain); the input domains without a mesh
    contribute nothing. *)
Theorem execute_one_output_per_meshed_domain (c : Clip.t Float)
    (collection : Collection Float) :
  reachable c ->
  exists res,
    execute c collection = Some res /\
    length res = length (with_mesh collection) /\
    Forall2 (fun dom output => clip_domain c dom = Some output)
            (with_mesh collection) res.
Proof.
  intros Hreach. apply reachable_clip_mode in Hreach.
  destruct (execute_from c collection [] Hreach) as (outputs & Hfold & Hall).
  exists outputs. split; [exact Hfold|]. split.
  - symmetry. eapply Forall2_length. exact Hall.
  - eapply Forall2_impl; [exact Hall|]. intros dom output [Hout _]. exact Hout.
Qed.

(** C7. For every configuration the interface can produce and every input,
    [execute] returns a collection none of whose domains holds the field
    named ["__dray_clip_field__"]: each pass removes it from its input and
    from its output before the output is chained or returned. *)
Theorem execute_output_has_no_scratch_field (c : Clip.t Float)
    (collection : Collection Float) :
  reachable c ->
  (exists res,
     execute c collection = Some res /\
     Forall (fun output => has_field output Clip.field_name = false) res) /\
  (forall (input : DataSet Float) (f : Field Float),
     has_field (Clip.remove_clip_field (add_field input f)) Clip.field_name = false) /\
  (forall (dom : DataSet Float) vars vars' pass,
     pass_body c dom vars pass = Some vars' ->
     has_field (fst vars') Clip.field_name = false /\
     has_field (snd vars') Clip.field_name = false).
Proof.
  intros Hreach. apply reachable_clip_mode in Hreach. split; [|split].
  - destruct (execute_from c collection [] Hreach) as (outputs & Hfold & Hall).
    exists outputs. split; [exact Hfold|].
    clear Hfold. induction Hall as [|dom output doms outputs [_ Hclean] _ IH];
      constructor; assumption.
  - intros input f. apply has_field_remove_clip_field.
  - intros dom vars vars' pass Hbody.
    destruct (pass_body_result c dom vars vars' pass Hbody) as [Heq Hclean].
    rewrite Heq. split; exact Hclean.
Qed.
End PipelineProperties.

(** ** The default configuration *)

(** C10. A fresh [Clip], on which no setter was called, is in single-plane
    mode (mode 2) with plane origin (0,0,0) and normal (1,0,0), with invert
    and multi-plane off.  Executing it on a domain with a mesh runs one
    pass: the [SinglePlaneDistance] field of that plane is attached under
    the scratch name and clipped at the value 0, not inverted.  The plane
    is x = 0: in exact arithmetic the field is the x coordinate of each
    control point, and on binary64 the normal is left as (1,0,0). *)
Theorem fresh_clip_is_single_plane_x0 :
  (forall (Float : Type) (ops : FloatOps Float)
          (ClipField_execute : ClipField.t Float -> DataSet Float -> DataSet Float)
          (empty_bounds : AABB Float) (mesh : Mesh Float)
          (fields : gmap string (Field Float)),
     let c := Clip.new empty_bounds in
     let i := Clip.m_internals c in
     let dom := mkDataSet (Some mesh) fields in
     let plane := SinglePlaneDistance.new (mkVec3 fzero fzero fzero)
                                          (mkVec3 fone fzero fzero) in
     let f := set_name Clip.field_name
                (set_mesh_name (mesh_name mesh) (SinglePlaneDistance.call plane mesh)) in
     let output := Clip.remove_clip_field
                     (ClipField_execute (ClipField.mk fzero Clip.field_name true false)
                                        (add_field dom f)) in
     InternalsType.clip_mode i = 2 /\
     mat_row (InternalsType.plane_origin i) 0 = Some (mkVec3 fzero fzero fzero) /\
     mat_row (InternalsType.plane_normal i) 0 = Some (mkVec3 fone fzero fzero) /\
     Clip.m_invert c = false /\
     Clip.m_do_multi_plane c = false /\
     InternalsType.num_passes i (Clip.m_do_multi_plane c) = 1 /\
     Clip.clip_domain ClipField_execute c dom = Some output /\
     Clip.execute ClipField_execute c [dom] = Some [output]) /\
  (forall mesh : Mesh R,
     m_values (field_dof_data
                 (SinglePlaneDistance.call
                    (SinglePlaneDistance.new (mkVec3 0 0 0) (mkVec3 1 0 0))%R mesh))
     = map vec_0 (m_values (get_dof_data mesh))) /\
  SinglePlaneDistance.new (mkVec3 0 0 0)%float (mkVec3 1 0 0)%float
  = SinglePlaneDistance.mk (mkVec3 0 0 0)%float (mkVec3 1 0 0)%float.
Proof.
  split; [|split].
  - intros. repeat split; reflexivity.
  - intros mesh. unfold SinglePlaneDistance.call, SinglePlaneDistance.new, normalize,
      magnitude. simpl.
    replace (1 * 1 + 0 * 0 + 0 * 0)%R with 1%R by ring.
    rewrite sqrt_1. destruct (Rlt_dec 0 1) as [_|Hno]; [|exfalso; apply Hno; lra].
    apply map_ext. intros [px py pz].
    unfold SinglePlaneDistance.point, plane_terms. simpl. field.
  - vm_compute. reflexivity.
Qed.

(** ** The clipping field of the later passes *)

Section LaterPasses.
Context {Float : Type} `{FloatOps Float}.
Variable ClipField_execute : ClipField.t Float -> DataSet Float -> DataSet Float.

(** Two planes in two passes, for any element-clip filter: the field of the
    second pass is the plane field of the mesh of [dom], the domain
    [execute] was given, and it is attached to the output of the first
    pass. *)
Lemma two_passes_unfolded (c : Clip.t Float) (o1 n1 o2 n2 : Vec3 Float)
    (mesh : Mesh Float) (fields : gmap string (Field Float)) :
  let c2 := Clip.SetMultiPlane true (Clip.Set2PlaneClip o1 n1 o2 n2 c) in
  let dom := mkDataSet (Some mesh) fields in
  let plane_field o n :=
    set_name Clip.field_name
      (set_mesh_name (mesh_name mesh)
         (SinglePlaneDistance.call (SinglePlaneDistance.new o n) mesh)) in
  let pass input f :=
    Clip.remove_clip_field
      (ClipField_execute (Clip.make_clipper c2 fzero) (add_field input f)) in
  Clip.clip_domain ClipField_execute c2 dom
  = Some (pass (pass dom (plane_field o1 n1)) (plane_field o2 n2)).
Proof. destruct o1, n1, o2, n2. reflexivity. Qed.
End LaterPasses.

Section SecondPass.
Import Example.

(** C1. Two planes in two passes on the unit cube.  The first pass leaves
    the four corners with x = 0 as the input of the second pass.  The field
    [execute] attaches in the second pass is computed from the original
    domain (eight scalars, one per corner of the cube), where the field of
    the current input has four; paired with the four remaining points, it
    keeps (0,0,0) and (0,1,0), whereas the pipeline of the specification
    keeps (0,0,0) and (0,0,1), the corners with x = 0 and y = 0. *)
Theorem second_pass_field_from_original_domain :
  Clip.pass_body point_cloud_clip two_planes cube (cube, DataSet_empty) 0
    = Some (cube_with x0_corners, cube_with x0_corners) /\
  field_values (Clip.make_clip_field two_planes cube 1)
    = Some [-0.5; -0.5; 0.5; 0.5; -0.5; -0.5; 0.5; 0.5]%float /\
  field_values (Clip.make_clip_field two_planes (cube_with x0_corners) 1)
    = Some [-0.5; 0.5; -0.5; 0.5]%float /\
  Clip.pass_body point_cloud_clip two_planes cube
                 (cube_with x0_corners, cube_with x0_corners) 1
    = Some (cube_with [mkVec3 0 0 0; mkVec3 0 1 0]%float,
            cube_with [mkVec3 0 0 0; mkVec3 0 1 0]%float) /\
  spec_pass_body point_cloud_clip two_planes
                 (cube_with x0_corners, cube_with x0_corners) 1
    = Some (cube_with [mkVec3 0 0 0; mkVec3 0 0 1]%float,
            cube_with [mkVec3 0 0 0; mkVec3 0 0 1]%float) /\
  Clip.clip_domain point_cloud_clip two_planes cube
    = Some (cube_with [mkVec3 0 0 0; mkVec3 0 1 0]%float) /\
  spec_clip_domain point_cloud_clip two_planes cube
    = Some (cube_with [mkVec3 0 0 0; mkVec3 0 0 1]%float).
Proof. vm_compute. repeat split; reflexivity. Qed.
End SecondPass.

(** ** The properties on concrete inputs *)



Lemma Forall2_impl_where {A B : Type} (P Q : A -> B -> Prop) (R : A -> Prop)
    (l : list A) (k : list B) :
  Forall2 P l k -> Forall R l -> (forall x y, P x y -> R x -> Q x y) -> Forall2 Q l k.
Proof.
  intros HP HR Himp. induction HP as [|x y l k Hxy _ IH]; [constructor|].
  apply Forall_cons in HR as [Hx HR]. constructor; auto.
Qed.

(** On binary64: two planes through the centre of the unit cube; at each of
    the eight corners the fused scalar is the minimum of the two signed
    distances. *)
Lemma multi_plane_is_min_of_single_planes_witness :
  1 <= 2 <= 3 /\
  exists distcalc fld,
    MultiPlaneDistance.new
      (InternalsType.plane_origin (Clip.m_internals Example.two_planes))
      (InternalsType.plane_normal (Clip.m_internals Example.two_planes)) 2
    = Some distcalc /\
    MultiPlaneDistance.call distcalc Example.cube_mesh = Some fld /\
    Forall2 (fun pt v =>
               is_minimum_of v
                 (map (fun plane => signed_distance plane pt)
                      (take (Z.to_nat 2)
                         (planes_of
                            (InternalsType.plane_origin (Clip.m_internals Example.two_planes))
                            (InternalsType.plane_normal (Clip.m_internals Example.two_planes))))))
            (m_values (get_dof_data Example.cube_mesh)) (m_values (field_dof_data fld)).
Proof.
  split; [lia|].
  destruct (multi_plane_is_min_of_single_planes
              (InternalsType.plane_origin (Clip.m_internals Example.two_planes))
              (InternalsType.plane_normal (Clip.m_internals Example.two_planes))
              2 Example.cube_mesh) as (distcalc & fld & Hnew & Hcall & Hvals); [lia|].
  exists distcalc, fld. split; [exact Hnew|]. split; [exact Hcall|].
  eapply Forall2_impl_where; [exact Hvals | | intros pt v [_ Hmin] Hord; exact (Hmin Hord)].
  unfold ordered. vm_compute. repeat constructor.
Defined.

(** ** The box evaluator on binary64 with infinite bounds *)


Lemma two_planes_reachable : reachable Example.two_planes.
Proof. apply reach_multi, reach_2plane, reach_new. Defined.

Lemma execute_one_output_per_meshed_domain_witness :
  reachable Example.two_planes /\
  exists res,
    Clip.execute Example.point_cloud_clip Example.two_planes
                 [Example.cube; Example.meshless; Example.cube] = Some res /\
    length res = length (with_mesh [Example.cube; Example.meshless; Example.cube]) /\
    Forall2 (fun dom output =>
               Clip.clip_domain Example.point_cloud_clip Example.two_planes dom
               = Some output)
            (with_mesh [Example.cube; Example.meshless; Example.cube]) res.
Proof.
  split; [exact two_planes_reachable|].
  exact (execute_one_output_per_meshed_domain Example.point_cloud_clip
           Example.two_planes [Example.cube; Example.meshless; Example.cube]
           two_planes_reachable).
Defined.

Lemma execute_output_has_no_scratch_field_witness :
  reachable Example.two_planes /\
  exists res,
    Clip.execute Example.point_cloud_clip Example.two_planes
                 [Example.cube; Example.meshless; Example.cube] = Some res /\
    Forall (fun output => has_field output Clip.field_name = false) res.
Proof.
  split; [exact two_planes_reachable|].
  exact (proj1 (execute_output_has_no_scratch_field Example.point_cloud_clip
                  Example.two_planes [Example.cube; Example.meshless; Example.cube]
                  two_planes_reachable)).
Defined.

(** The run behind the two witnesses: the domain without a mesh is dropped
    and each cube yields one output, free of the scratch field. *)
Example execute_three_domains :
  Clip.execute Example.point_cloud_clip Example.two_planes
               [Example.cube; Example.meshless; Example.cube]
  = Some [ Example.cube_with [mkVec3 0 0 0; mkVec3 0 1 0]%float;
           Example.cube_with [mkVec3 0 0 0; mkVec3 0 1 0]%float ].
Proof. vm_compute. reflexivity. Qed.

(** * Further properties *)

(** ** The layout of the evaluators' fields *)

Section LayoutProperties.
Context {Float : Type} `{FloatOps Float}.

Lemma distance_field_layout (mesh : Mesh Float) (values : list Float) :
  length values = length (m_values (get_dof_data mesh)) ->
  same_layout mesh (distance_field mesh values).
Proof. intros Hlen. repeat split; simpl; auto. Qed.

Lemma mapM_total_map {A B : Type} (f : A -> option B) (g : A -> B) (l : list A) :
  (forall x, f x = Some (g x)) -> mapM f l = Some (map g l).
Proof.
  intros Hfg. apply mapM_Some. induction l as [|x l IH]; constructor; auto.
Qed.

Lemma mapM_pointwise_eq {A B : Type} (f g : A -> option B) (l : list A) :
  (forall x, f x = g x) -> mapM f l = mapM g l.
Proof.
  intros Hfg. induction l as [|x l IH]; simpl; [reflexivity|].
  rewrite Hfg, IH. reflexivity.
Qed.

(** The loop over the planes yields a value for 1, 2 and 3 planes, whatever
    the matrices. *)
Lemma multi_plane_point_is_Some (origin normal : Mat3 Float) (nplanes : Z)
    (pt : Vec3 Float) :
  1 <= nplanes <= 3 ->
  is_Some (MultiPlaneDistance.point origin normal nplanes pt).
Proof.
  intros Hn.
  assert (Hcases : nplanes = 1 \/ nplanes = 2 \/ nplanes = 3) by lia.
  destruct Hcases as [-> | [-> | ->]]; simpl; eauto.
Qed.

Lemma MultiPlaneDistance_new_planes (origin normal : Mat3 Float) (nplanes : Z)
    (self : MultiPlaneDistance.t Float) :
  MultiPlaneDistance.new origin normal nplanes = Some self ->
  1 <= nplanes <= 3 /\ MultiPlaneDistance.m_planes self = nplanes.
Proof.
  unfold MultiPlaneDistance.new. case_bool_decide; [discriminate|].
  intros [= <-]. simpl. lia.
Qed.

(** X1. The field of every evaluator is laid out like the mesh it was
    computed on: it copies the element topology and the order of the mesh
    and holds exactly one scalar per control point, the value of the
    evaluator's point function at that control point.  This holds for the
    sphere, the single plane and the box on every mesh, and for every
    multi-plane evaluator its constructor accepted, which always yields a
    field. *)
Theorem evaluator_fields_follow_mesh
    (center : Vec3 Float) (radius : Float) (origin normal : Vec3 Float)
    (bounds : AABB Float) (origins normals : Mat3 Float) (nplanes : Z)
    (multi : MultiPlaneDistance.t Float) (mesh : Mesh Float) :
  MultiPlaneDistance.new origins normals nplanes = Some multi ->
  let points := m_values (get_dof_data mesh) in
  let scalars (f : Field Float) := m_values (field_dof_data f) in
  let sphere := SphereDistance.new center radius in
  let plane := SinglePlaneDistance.new origin normal in
  let box := BoxDistance.new bounds in
  (same_layout mesh (SphereDistance.call sphere mesh) /\
   forall i, scalars (SphereDistance.call sphere mesh) !! i
             = SphereDistance.point (SphereDistance.m_center sphere) <$> points !! i) /\
  (same_layout mesh (SinglePlaneDistance.call plane mesh) /\
   forall i, scalars (SinglePlaneDistance.call plane mesh) !! i
             = SinglePlaneDistance.point (SinglePlaneDistance.m_origin plane)
                 (SinglePlaneDistance.m_normal plane) <$> points !! i) /\
  (same_layout mesh (BoxDistance.call box mesh) /\
   forall i, scalars (BoxDistance.call box mesh) !! i
             = BoxDistance.point (BoxDistance.m_bounds box) <$> points !! i) /\
  exists fld,
    MultiPlaneDistance.call multi mesh = Some fld /\
    same_layout mesh fld /\
    forall i, scalars fld !! i
              = points !! i ≫=
                  MultiPlaneDistance.point (MultiPlaneDistance.m_origin multi)
                    (MultiPlaneDistance.m_normal multi) (MultiPlaneDistance.m_planes multi).
Proof.
  intros Hnew points scalars sphere plane box.
  repeat split;
    try (apply distance_field_layout; apply length_map);
    try (intros i; apply list_lookup_fmap).
  apply MultiPlaneDistance_new_planes in Hnew as [Hn Hplanes].
  set (pointf := MultiPlaneDistance.point (MultiPlaneDistance.m_origin multi)
                   (MultiPlaneDistance.m_normal multi) (MultiPlaneDistance.m_planes multi)).
  assert (Hvals : exists values, mapM pointf points = Some values).
  { apply (mapM_is_Some_2 pointf points). apply Forall_forall. intros pt _.
    apply multi_plane_point_is_Some. lia. }
  destruct Hvals as [values Hvals].
  exists (distance_field mesh values). split; [|split].
  - unfold MultiPlaneDistance.call. fold points pointf. rewrite Hvals. reflexivity.
  - apply distance_field_layout. symmetry. eapply length_mapM. exact Hvals.
  - intros i. subst scalars. simpl.
    apply mapM_Some in Hvals.
    destruct (points !! i) as [pt|] eqn:Hpt; simpl.
    + destruct (Forall2_lookup_l _ _ _ _ _ Hvals Hpt) as (v & Hv & Hpv).
      rewrite Hv. symmetry. exact Hpv.
    + apply lookup_ge_None. apply lookup_ge_None in Hpt.
      rewrite <- (Forall2_length _ _ _ Hvals). exact Hpt.
Qed.


(** X3. A multi-plane evaluator over one plane writes the field of the
    single-plane evaluator of the first plane; the other two rows play no
    part. *)
Theorem multi_plane_of_one_is_single_plane (origin normal : Mat3 Float)
    (mesh : Mesh Float) :
  exists multi,
    MultiPlaneDistance.new origin normal 1 = Some multi /\
    MultiPlaneDistance.call multi mesh
    = Some (SinglePlaneDistance.call
              (SinglePlaneDistance.new (row_0 origin) (row_0 normal)) mesh).
Proof.
  eexists. split; [apply MultiPlaneDistance_new_ok; lia|].
  unfold MultiPlaneDistance.call, SinglePlaneDistance.call. simpl.
  erewrite mapM_total_map; [reflexivity|].
  intros pt. destruct origin as [[] ? ?], normal as [[] ? ?]. reflexivity.
Qed.
End LayoutProperties.

(** ** The evaluators in exact arithmetic *)

Section ExactProperties.
Local Open Scope R_scope.

Lemma sum_squares_nonneg (a b c : R) : 0 <= a * a + b * b + c * c.
Proof. nra. Qed.

Lemma sum_squares_zero (a b c : R) :
  a * a + b * b + c * c = 0 -> a = 0 /\ b = 0 /\ c = 0.
Proof. intros Hs. repeat split; nra. Qed.

Lemma magnitude_nonneg (v : Vec3 R) : 0 <= magnitude v.
Proof. apply sqrt_pos. Qed.

Lemma magnitude_square (v : Vec3 R) :
  magnitude v * magnitude v = vec_0 v * vec_0 v + vec_1 v * vec_1 v + vec_2 v * vec_2 v.
Proof. apply sqrt_sqrt, sum_squares_nonneg. Qed.

Lemma magnitude_zero_iff (v : Vec3 R) : magnitude v = 0 <-> v = mkVec3 0 0 0.
Proof.
  split.
  - intros Hm. pose proof (magnitude_square v) as Hsq. rewrite Hm in Hsq.
    destruct v as [x y z]. simpl in Hsq.
    destruct (sum_squares_zero x y z) as (-> & -> & ->); [lra | reflexivity].
  - intros ->. unfold magnitude. simpl.
    replace (0 * 0 + 0 * 0 + 0 * 0) with 0 by ring. apply sqrt_0.
Qed.

Lemma normalize_positive (v : Vec3 R) :
  0 < magnitude v ->
  normalize v = mkVec3 (vec_0 v / magnitude v) (vec_1 v / magnitude v)
                       (vec_2 v / magnitude v).
Proof.
  intros Hpos. unfold normalize.
  change (fgt (magnitude v) fzero) with (if Rlt_dec 0 (magnitude v) then true else false).
  destruct (Rlt_dec 0 (magnitude v)); [reflexivity | contradiction].
Qed.

Lemma normalize_zero (v : Vec3 R) : magnitude v = 0 -> normalize v = v.
Proof.
  intros Hz. unfold normalize.
  change (fgt (magnitude v) fzero) with (if Rlt_dec 0 (magnitude v) then true else false).
  destruct (Rlt_dec 0 (magnitude v)); [lra | reflexivity].
Qed.

Lemma magnitude_normalize (v : Vec3 R) : 0 < magnitude v -> magnitude (normalize v) = 1.
Proof.
  intros Hpos. rewrite (normalize_positive v Hpos).
  pose proof (magnitude_square v) as Hsq.
  unfold magnitude at 1. cbn [vec_0 vec_1 vec_2].
  set (m := magnitude v) in *.
  change (R_sqrt.sqrt (vec_0 v / m * (vec_0 v / m) + vec_1 v / m * (vec_1 v / m) +
                       vec_2 v / m * (vec_2 v / m)) = 1).
  replace (vec_0 v / m * (vec_0 v / m) + vec_1 v / m * (vec_1 v / m) +
           vec_2 v / m * (vec_2 v / m))
    with ((vec_0 v * vec_0 v + vec_1 v * vec_1 v + vec_2 v * vec_2 v) / (m * m))
    by (field; lra).
  rewrite <- Hsq. replace (m * m / (m * m)) with 1 by (field; lra). apply sqrt_1.
Qed.

(** X4. In exact arithmetic [normalize] returns a unit vector for every
    vector but the zero vector, which is the only vector of magnitude 0 and
    is returned as it is; normalising twice is normalising once. *)
Theorem normalize_unit_and_idempotent (v : Vec3 R) :
  (v <> mkVec3 0 0 0 -> magnitude (normalize v) = 1) /\
  (v = mkVec3 0 0 0 -> normalize v = mkVec3 0 0 0) /\
  normalize (normalize v) = normalize v.
Proof.
  pose proof (magnitude_nonneg v) as Hnn.
  split; [|split].
  - intros Hv. apply magnitude_normalize.
    destruct (Req_dec (magnitude v) 0) as [Hz|Hz]; [|lra].
    apply magnitude_zero_iff in Hz. contradiction.
  - intros ->. apply normalize_zero. now apply magnitude_zero_iff.
  - destruct (Req_dec (magnitude v) 0) as [Hz|Hz].
    + now rewrite (normalize_zero v Hz), (normalize_zero v Hz).
    + assert (Hpos : 0 < magnitude v) by lra.
      pose proof (magnitude_normalize v Hpos) as Hunit.
      rewrite (normalize_positive (normalize v)) by lra.
      rewrite Hunit. destruct (normalize v) as [x y z]. simpl.
      f_equal; field.
Qed.

Lemma magnitude_scale (k : R) (v : Vec3 R) :
  0 <= k -> magnitude (vec_scale k v) = k * magnitude v.
Proof.
  intros Hk. unfold magnitude, vec_scale. simpl.
  replace (k * vec_0 v * (k * vec_0 v) + k * vec_1 v * (k * vec_1 v) +
           k * vec_2 v * (k * vec_2 v))
    with (k * k * (vec_0 v * vec_0 v + vec_1 v * vec_1 v + vec_2 v * vec_2 v)) by ring.
  rewrite sqrt_mult; [|nra | apply sum_squares_nonneg].
  now rewrite sqrt_square.
Qed.

Lemma normalize_scale (k : R) (v : Vec3 R) :
  0 < k -> normalize (vec_scale k v) = normalize v.
Proof.
  intros Hk. pose proof (magnitude_nonneg v) as Hnn.
  destruct (Req_dec (magnitude v) 0) as [Hz|Hz].
  - rewrite (normalize_zero v Hz).
    apply magnitude_zero_iff in Hz. subst v.
    rewrite normalize_zero.
    + unfold vec_scale. simpl. f_equal; ring.
    + apply magnitude_zero_iff. unfold vec_scale. simpl. f_equal; ring.
  - assert (Hpos : 0 < magnitude v) by lra.
    rewrite (normalize_positive v Hpos).
    rewrite normalize_positive; rewrite magnitude_scale by lra; [|nra].
    unfold vec_scale. cbn [vec_0 vec_1 vec_2]. f_equal; field; lra.
Qed.

(** X5. In exact arithmetic the single-plane evaluator depends on the
    direction of the normal only: scaling the normal by a positive factor
    leaves the evaluator, hence its field on every mesh, unchanged. *)
Theorem single_plane_ignores_normal_length (origin normal : Vec3 R) (k : R)
    (mesh : Mesh R) :
  0 < k ->
  SinglePlaneDistance.new origin (vec_scale k normal) = SinglePlaneDistance.new origin normal /\
  SinglePlaneDistance.call (SinglePlaneDistance.new origin (vec_scale k normal)) mesh
  = SinglePlaneDistance.call (SinglePlaneDistance.new origin normal) mesh.
Proof.
  intros Hk.
  assert (Hnew : SinglePlaneDistance.new origin (vec_scale k normal)
                 = SinglePlaneDistance.new origin normal).
  { unfold SinglePlaneDistance.new. rewrite !mkVec3_eta.
    now rewrite (normalize_scale k normal Hk). }
  split; [exact Hnew | now rewrite Hnew].
Qed.

(** X6. In exact arithmetic the single-plane value is the signed distance
    along the unit normal: it is 0 at the origin of the plane, and at the
    point reached from the origin by [t] times the normalised normal it is
    [t], for every normal but the zero vector. *)
Theorem single_plane_value_along_normal (origin normal : Vec3 R) (t : R) :
  normal <> mkVec3 0 0 0 ->
  single_plane_value (origin, normal) origin = 0 /\
  single_plane_value (origin, normal)
    (vec_add origin (vec_scale t (normalize normal))) = t.
Proof.
  intros Hn.
  assert (Hpos : 0 < magnitude normal).
  { pose proof (magnitude_nonneg normal).
    destruct (Req_dec (magnitude normal) 0) as [Hz|Hz]; [|lra].
    apply magnitude_zero_iff in Hz. contradiction. }
  pose proof (magnitude_normalize normal Hpos) as Hunit.
  pose proof (magnitude_square (normalize normal)) as Hsq. rewrite Hunit in Hsq.
  unfold single_plane_value, SinglePlaneDistance.new, SinglePlaneDistance.point,
    plane_terms. simpl. rewrite mkVec3_eta.
  destruct (normalize normal) as [ux uy uz]. destruct origin as [ox oy oz].
  simpl in *. split; [ring|].
  replace ((ox + t * ux - ox) * ux + (oy + t * uy - oy) * uy + (oz + t * uz - oz) * uz)
    with (t * (ux * ux + uy * uy + uz * uz)) by ring.
  rewrite <- Hsq. ring.
Qed.

(** X7. In exact arithmetic the sphere value at a point is the Euclidean
    distance to the centre: it is never negative, it is 0 at the centre
    only, and for a radius that is not negative it is below the radius
    exactly when the squared distance is below the squared radius. *)
Theorem sphere_value_is_distance (center pt : Vec3 R) (radius : R) :
  let v := SphereDistance.point center pt in
  0 <= v /\
  v * v = sq_dist center pt /\
  (v = 0 <-> pt = center) /\
  (0 <= radius -> (v < radius <-> sq_dist center pt < radius * radius)).
Proof.
  destruct center as [cx cy cz], pt as [px py pz].
  unfold SphereDistance.point, sq_dist. simpl.
  set (s := (cx - px) * (cx - px) + (cy - py) * (cy - py) + (cz - pz) * (cz - pz)).
  assert (Hs : 0 <= s) by apply sum_squares_nonneg.
  pose proof (sqrt_pos s) as Hv. pose proof (sqrt_sqrt s Hs) as Hsq.
  split; [exact Hv|]. split; [exact Hsq|]. split; [split|].
  - intros Hz. rewrite Hz in Hsq.
    destruct (sum_squares_zero (cx - px) (cy - py) (cz - pz)) as (Hx & Hy & Hz');
      [unfold s in Hsq; lra|].
    f_equal; lra.
  - intros [= -> -> ->]. unfold s.
    replace ((cx - cx) * (cx - cx) + (cy - cy) * (cy - cy) + (cz - cz) * (cz - cz))
      with 0 by ring.
    apply sqrt_0.
  - intros Hr. split; intros Hlt; nra.
Qed.
End ExactProperties.

(** ** The level sets of the box and of the fused planes *)

Section LevelSets.
Local Open Scope R_scope.

Lemma Rmax_le_iff (a b c : R) : Rmax a b <= c <-> a <= c /\ b <= c.
Proof. unfold Rmax. destruct (Rle_dec a b); lra. Qed.

Lemma Rmax_lt_iff (a b c : R) : Rmax a b < c <-> a < c /\ b < c.
Proof. unfold Rmax. destruct (Rle_dec a b); lra. Qed.

(** X8. In exact arithmetic the box value separates the box from its
    complement: it is at most 0 exactly on the closed box and negative
    exactly in its interior, so it is 0 exactly on the boundary and positive
    exactly outside the closed box. *)
Theorem box_value_level_sets (bounds : AABB R) (pt : Vec3 R) :
  (BoxDistance.point bounds pt <= 0 <-> in_closed_box bounds pt) /\
  (BoxDistance.point bounds pt < 0 <-> strictly_inside bounds pt) /\
  (BoxDistance.point bounds pt = 0 <->
   in_closed_box bounds pt /\ ~ strictly_inside bounds pt) /\
  (0 < BoxDistance.point bounds pt <-> ~ in_closed_box bounds pt).
Proof.
  assert (Hle : BoxDistance.point bounds pt <= 0 <-> in_closed_box bounds pt).
  { unfold BoxDistance.point, plane_terms, in_closed_box. simpl.
    rewrite !Rmax_le_iff. lra. }
  assert (Hlt : BoxDistance.point bounds pt < 0 <-> strictly_inside bounds pt).
  { unfold BoxDistance.point, plane_terms, strictly_inside, interior_on. simpl.
    rewrite !Rmax_lt_iff. lra. }
  split; [exact Hle|]. split; [exact Hlt|]. split.
  - rewrite <- Hle, <- Hlt. lra.
  - rewrite <- Hle. lra.
Qed.

(** X9. In exact arithmetic, when exactly one face of the box is violated,
    that is, one of the six half-space distances is positive and the other
    five are not, the box value is that distance: the distance from the
    point to the violated face. *)
Theorem box_value_single_violated_face (bounds : AABB R) (pt : Vec3 R) (i : nat) (d : R) :
  half_space_distances bounds pt !! i = Some d ->
  0 < d ->
  (forall j e, j <> i -> half_space_distances bounds pt !! j = Some e -> e <= 0) ->
  BoxDistance.point bounds pt = d.
Proof.
  intros Hd Hpos Hothers.
  destruct (max_list_is_greatest _ _ (box_point_half_spaces bounds pt)) as [Hin Hall].
  apply list_elem_of_lookup in Hin as [j Hj].
  assert (Hge : d <= BoxDistance.point bounds pt).
  { rewrite Forall_forall in Hall. apply Hall. eapply list_elem_of_lookup_2. exact Hd. }
  destruct (decide (j = i)) as [->|Hne].
  - rewrite Hd in Hj. now injection Hj.
  - pose proof (Hothers j _ Hne Hj). lra.
Qed.

Lemma min_list_negative_iff (l : list R) (v : R) :
  min_list l = Some v -> (v < 0 <-> Exists (fun x => x < 0) l).
Proof.
  intros Hmin. destruct (min_list_is_least l v Hmin) as [Hin Hall].
  rewrite Exists_exists, Forall_forall in *. split.
  - intros Hneg. exists v. auto.
  - intros (x & Hx & Hneg). specialize (Hall x Hx). lra.
Qed.

(** X10. In exact arithmetic the fused field of N planes (N in 1..3) is
    below the clip value 0 at a control point exactly when the single-plane
    value of at least one of the N planes is: the region the fused field
    marks as smaller than the clip value is the union of the regions the
    single planes mark. *)
Theorem fused_planes_mark_union (origin normal : Mat3 R) (nplanes : Z) (mesh : Mesh R) :
  (1 <= nplanes <= 3)%Z ->
  exists distcalc fld,
    MultiPlaneDistance.new origin normal nplanes = Some distcalc /\
    MultiPlaneDistance.call distcalc mesh = Some fld /\
    Forall2 (fun pt v =>
               v < 0 <->
               Exists (fun plane => single_plane_value plane pt < 0)
                      (take (Z.to_nat nplanes) (planes_of origin normal)))
            (m_values (get_dof_data mesh)) (m_values (field_dof_data fld)).
Proof.
  intros Hn.
  destruct (multi_plane_call_min origin normal nplanes mesh Hn)
    as (distcalc & fld & Hnew & Hcall & _ & Hvals).
  exists distcalc, fld. split; [exact Hnew|]. split; [exact Hcall|].
  eapply Forall2_impl; [exact Hvals|].
  intros pt v Hmin. unfold min_over_planes in Hmin.
  rewrite (min_list_negative_iff _ _ Hmin). apply Exists_fmap.
Qed.
End LevelSets.

(** ** Further properties of the configuration *)

Section ConfigurationExtras.
Context {Float : Type} `{FloatOps Float}.

(** X11. A shape setter discards the configuration before it: the field and
    clip value [make_distances] yields after a setter are the same whatever
    the state the setter was called on, at every pass index for the box,
    the sphere, the single plane and three planes, and at every pass index
    below [num_passes] for two planes. *)
Theorem shape_setters_discard_previous
    (i i' : InternalsType.t Float) (domain : DataSet Float) (multipass : bool)
    (pass : nat) (bounds : AABB Float) (center : Vec3 Float) (radius : Float)
    (o1 n1 o2 n2 o3 n3 : Vec3 Float) :
  let same (set : InternalsType.t Float -> InternalsType.t Float) :=
    InternalsType.make_distances (set i) domain multipass pass
    = InternalsType.make_distances (set i') domain multipass pass in
  same (InternalsType.SetBoxClip bounds) /\
  same (InternalsType.SetSphereClip center radius) /\
  same (InternalsType.SetPlaneClip o1 n1) /\
  same (InternalsType.Set3PlaneClip o1 n1 o2 n2 o3 n3) /\
  ((pass < Z.to_nat (InternalsType.num_passes
                       (InternalsType.Set2PlaneClip o1 n1 o2 n2 i) multipass))%nat ->
   same (InternalsType.Set2PlaneClip o1 n1 o2 n2)).
Proof.
  intros same. subst same. repeat (split; [reflexivity|]).
  intros Hpass. destruct multipass.
  - destruct pass as [|[|pass]]; [reflexivity | reflexivity |].
    change (InternalsType.num_passes _ true) with 2 in Hpass. lia.
  - destruct domain as [[mesh|] fields]; [|reflexivity].
    unfold InternalsType.make_distances, InternalsType.make_multi_plane_distances,
      MultiPlaneDistance.call.
    simpl.
    erewrite mapM_pointwise_eq; [reflexivity|]. intros pt. reflexivity.
Qed.


(** Whatever [make_distances] yields on a domain is laid out like the mesh
    of that domain. *)
Lemma make_distances_layout (i : InternalsType.t Float) (mesh : Mesh Float)
    (fields : gmap string (Field Float)) (multipass : bool) (pass : nat)
    (f : Field Float) (clip_value : Float) :
  InternalsType.make_distances i (mkDataSet (Some mesh) fields) multipass pass
  = Some (f, clip_value) ->
  same_layout mesh f.
Proof.
  assert (Hplane : forall k,
            InternalsType.make_plane_distances i (mkDataSet (Some mesh) fields) k
            = Some (f, clip_value) -> same_layout mesh f).
  { intros k. unfold InternalsType.make_plane_distances.
    destruct (mat_row (InternalsType.plane_origin i) k); simpl; [|discriminate].
    destruct (mat_row (InternalsType.plane_normal i) k); simpl; [|discriminate].
    intros [= <- _]. apply distance_field_layout, length_map. }
  unfold InternalsType.make_distances.
  repeat case_bool_decide; try discriminate.
  - unfold InternalsType.make_box_distances. simpl.
    intros [= <- _]. apply distance_field_layout, length_map.
  - unfold InternalsType.make_sphere_distances. simpl.
    intros [= <- _]. apply distance_field_layout, length_map.
  - apply Hplane.
  - destruct multipass; [apply Hplane|].
    unfold InternalsType.make_multi_plane_distances, MultiPlaneDistance.call.
    destruct (MultiPlaneDistance.new _ _ _) as [dc|]; simpl; [|discriminate].
    destruct (mapM _ _) as [values|] eqn:Hvals; simpl; [|discriminate].
    intros [= <- _]. apply distance_field_layout. symmetry.
    eapply length_mapM. exact Hvals.
Qed.
End ConfigurationExtras.

(** ** Further properties of the driver *)

Section DriverExtras.
Context {Float : Type} `{FloatOps Float}.
Variable ClipField_execute : ClipField.t Float -> DataSet Float -> DataSet Float.

Local Abbreviation pass_body := (Clip.pass_body ClipField_execute).
Local Abbreviation clip_domain := (Clip.clip_domain ClipField_execute).
Local Abbreviation execute := (Clip.execute ClipField_execute).

(** X13. For every configuration the interface can produce, every domain
    with a mesh and every pass index below [num_passes], the clipping field
    of the pass exists (no null field, no plane index out of bounds); it
    carries the scratch name, is tagged to the mesh of the domain [execute]
    was given, and is laid out like that mesh, whatever the earlier passes
    produced. *)
Theorem clip_field_of_every_pass (c : Clip.t Float) (mesh : Mesh Float)
    (fields : gmap string (Field Float)) (pass : nat) :
  reachable c ->
  (pass < Z.to_nat (InternalsType.num_passes (Clip.m_internals c)
                                             (Clip.m_do_multi_plane c)))%nat ->
  exists f clip_value,
    Clip.make_clip_field c (mkDataSet (Some mesh) fields) pass = Some (f, clip_value) /\
    field_name f = Clip.field_name /\
    field_mesh_name f = mesh_name mesh /\
    same_layout mesh f.
Proof.
  intros Hreach Hpass. apply reachable_clip_mode in Hreach.
  pose proof (num_passes_range (Clip.m_internals c) (Clip.m_do_multi_plane c)) as Hn.
  destruct (make_distances_is_Some (Clip.m_internals c) (mkDataSet (Some mesh) fields)
              (Clip.m_do_multi_plane c) pass Hreach) as [[f cv] Hf];
    [simpl; eauto | lia |].
  exists (set_name Clip.field_name (set_mesh_name (mesh_name mesh) f)), cv.
  split; [|split; [reflexivity | split; [reflexivity|]]].
  - unfold Clip.make_clip_field. rewrite Hf. reflexivity.
  - apply make_distances_layout in Hf. exact Hf.
Qed.

Lemma execute_loop_None (c : Clip.t Float) (collection : Collection Float) :
  foldl (fun res dom =>
           res ← res;
           match ds_mesh dom with
           | Some _ => output ← clip_domain c dom; Some (add_domain res output)
           | None => Some res
           end) None collection = None.
Proof. induction collection as [|dom doms IH]; simpl; auto. Qed.

Lemma execute_loop_acc (c : Clip.t Float) (collection acc : Collection Float) :
  foldl (fun res dom =>
           res ← res;
           match ds_mesh dom with
           | Some _ => output ← clip_domain c dom; Some (add_domain res output)
           | None => Some res
           end) (Some acc) collection
  = (fun res => acc ++ res) <$> execute c collection.
Proof.
  unfold Clip.execute. revert acc.
  induction collection as [|dom doms IH]; intros acc; simpl.
  - now rewrite app_nil_r.
  - destruct (ds_mesh dom) as [mesh|]; [|apply IH].
    destruct (clip_domain c dom) as [output|]; simpl.
    + rewrite (IH (add_domain acc output)), (IH (add_domain [] output)).
      match goal with
      | |- context [foldl ?f (Some []) doms] =>
          destruct (foldl f (Some []) doms) as [res|]
      end; simpl; [|reflexivity].
      unfold add_domain. simpl. now rewrite <- app_assoc.
    + now rewrite execute_loop_None.
Qed.

(** X14. The domains of a collection are clipped independently and in
    order: the result for a concatenation of two collections is the
    concatenation of the two results, and it fails exactly when one of the
    two fails. *)
Theorem execute_app (c : Clip.t Float) (c1 c2 : Collection Float) :
  execute c (c1 ++ c2)
  = (res1 ← execute c c1; res2 ← execute c c2; Some (res1 ++ res2)).
Proof.
  unfold Clip.execute at 1. rewrite foldl_app. fold (execute c c1).
  destruct (execute c c1) as [res1|]; simpl.
  - rewrite execute_loop_acc. now destruct (execute c c2).
  - apply execute_loop_None.
Qed.

(** X15. A collection in which no domain has a mesh is mapped to the empty
    collection, whatever the configuration: the shape is never consulted. *)
Theorem execute_without_meshes (c : Clip.t Float) (collection : Collection Float) :
  Forall (fun dom => ds_mesh dom = None) collection ->
  execute c collection = Some [].
Proof.
  unfold Clip.execute. induction 1 as [|dom doms Hdom _ IH]; simpl; [reflexivity|].
  rewrite Hdom. exact IH.
Qed.

(** X16. In every configuration of one pass, [execute] clips a domain as
    the chained pipeline of the specification does: the domain the field is
    computed from is the domain given to the filter.  The two differ in
    later passes only. *)
Theorem single_pass_agrees_with_chained (c : Clip.t Float) (dom : DataSet Float) :
  InternalsType.num_passes (Clip.m_internals c) (Clip.m_do_multi_plane c) = 1 ->
  clip_domain c dom = spec_clip_domain ClipField_execute c dom.
Proof.
  intros Hone. unfold Clip.clip_domain, spec_clip_domain. rewrite Hone. simpl.
  unfold Clip.pass_body, spec_pass_body.
  destruct (Clip.make_clip_field c dom 0) as [[f cv]|]; reflexivity.
Qed.

End DriverExtras.

(** ** The setters of [vtkh::Streamline] *)

Section StreamlineProperties.
Context {Double Particle : Type}.

Lemma perform_all_snoc (self : Streamline.t Double Particle)
    (calls : list (Streamline.call Double Particle)) (c : Streamline.call Double Particle) :
  Streamline.perform_all self (calls ++ [c])
  = Streamline.perform (Streamline.perform_all self calls) c.
Proof. unfold Streamline.perform_all. now rewrite foldl_app. Qed.

(** X18. After any sequence of setter calls on a [Streamline], the tube
    size is the argument of the last [SetTubeSize] call, or the earlier
    size if there was no such call; and the flag [m_radius_set] is raised
    exactly when it was raised before or [SetTubeSize] was called: no
    setter ever lowers it. *)
Theorem streamline_tube_size_and_flag (self : Streamline.t Double Particle)
    (calls : list (Streamline.call Double Particle)) :
  Streamline.m_tube_size (Streamline.perform_all self calls)
    = default (Streamline.m_tube_size self) (last (Streamline.tube_sizes calls)) /\
  Streamline.m_radius_set (Streamline.perform_all self calls)
    = Streamline.m_radius_set self
      || bool_decide (Streamline.tube_sizes calls <> []).
Proof.
  induction calls as [|c calls IH] using rev_ind.
  - simpl. now rewrite orb_false_r.
  - destruct IH as [IHsize IHflag].
    rewrite perform_all_snoc. unfold Streamline.tube_sizes in *.
    rewrite omap_app.
    destruct c; simpl; rewrite ?app_nil_r; try (split; [exact IHsize | exact IHflag]).
    rewrite last_snoc. simpl. split; [reflexivity|].
    rewrite bool_decide_eq_true_2; [now rewrite orb_true_r|].
    intros Hnil. apply app_eq_nil in Hnil as [_ Hnil]. discriminate.
Qed.
End StreamlineProperties.

(** ** Symmetries of the plane evaluators in exact arithmetic *)

Section PlaneSymmetries.
Local Open Scope R_scope.

Lemma magnitude_opp (v : Vec3 R) : magnitude (vec_scale (-1) v) = magnitude v.
Proof.
  unfold magnitude, vec_scale. cbn [vec_0 vec_1 vec_2]. f_equal.
  change (-1 * vec_0 v * (-1 * vec_0 v) + -1 * vec_1 v * (-1 * vec_1 v) +
          -1 * vec_2 v * (-1 * vec_2 v)
          = vec_0 v * vec_0 v + vec_1 v * vec_1 v + vec_2 v * vec_2 v).
  ring.
Qed.

Lemma normalize_opp (v : Vec3 R) :
  normalize (vec_scale (-1) v) = vec_scale (-1) (normalize v).
Proof.
  pose proof (magnitude_nonneg v) as Hnn.
  destruct (Req_dec (magnitude v) 0) as [Hz|Hz].
  - rewrite (normalize_zero v Hz). apply normalize_zero. now rewrite magnitude_opp.
  - assert (Hpos : 0 < magnitude v) by lra.
    rewrite (normalize_positive v Hpos).
    rewrite normalize_positive; rewrite magnitude_opp; [|exact Hpos].
    unfold vec_scale. cbn [vec_0 vec_1 vec_2]. f_equal; field; lra.
Qed.

(** X19. In exact arithmetic, reversing the normal of a plane negates the
    single-plane value at every point: the two orientations of a plane mark
    opposite sides. *)
Theorem single_plane_reversed_normal (origin normal pt : Vec3 R) :
  single_plane_value (origin, vec_scale (-1) normal) pt
  = - single_plane_value (origin, normal) pt.
Proof.
  unfold single_plane_value, SinglePlaneDistance.new, SinglePlaneDistance.point,
    plane_terms.
  cbn [fst snd SinglePlaneDistance.m_origin SinglePlaneDistance.m_normal].
  rewrite !mkVec3_eta, normalize_opp.
  destruct (normalize normal) as [ux uy uz].
  unfold vec_scale. cbn [vec_0 vec_1 vec_2].
  change ((vec_0 pt - vec_0 origin) * (-1 * ux) + (vec_1 pt - vec_1 origin) * (-1 * uy) +
          (vec_2 pt - vec_2 origin) * (-1 * uz)
          = - ((vec_0 pt - vec_0 origin) * ux + (vec_1 pt - vec_1 origin) * uy +
               (vec_2 pt - vec_2 origin) * uz)).
  ring.
Qed.

(** X20. In exact arithmetic the order of the two planes is immaterial when
    they are fused into one pass: [make_distances] yields the same field and
    clip value for the two planes given in either order. *)
Theorem fused_two_planes_commute (i : InternalsType.t R) (domain : DataSet R)
    (pass : nat) (o1 n1 o2 n2 : Vec3 R) :
  InternalsType.make_distances (InternalsType.Set2PlaneClip o1 n1 o2 n2 i) domain false pass
  = InternalsType.make_distances (InternalsType.Set2PlaneClip o2 n2 o1 n1 i) domain false pass.
Proof.
  destruct domain as [[mesh|] fields]; [|reflexivity].
  unfold InternalsType.make_distances, InternalsType.make_multi_plane_distances,
    MultiPlaneDistance.call.
  simpl.
  erewrite mapM_pointwise_eq; [reflexivity|].
  intros pt.
  transitivity (Some (Rmin (single_plane_value (o1, n1) pt)
                           (single_plane_value (o2, n2) pt))); [reflexivity|].
  transitivity (Some (Rmin (single_plane_value (o2, n2) pt)
                           (single_plane_value (o1, n1) pt))); [|reflexivity].
  f_equal. apply Rmin_comm.
Qed.
End PlaneSymmetries.

(** ** The multi-plane option on shapes of one pass *)

Section MultiPlaneOption.
Context {Float : Type} `{FloatOps Float}.
Variable ClipField_execute : ClipField.t Float -> DataSet Float -> DataSet Float.

Lemma make_distances_ignores_multipass (i : InternalsType.t Float) (domain : DataSet Float)
    (multipass multipass' : bool) (pass pass' : nat) :
  InternalsType.clip_mode i <= 2 ->
  InternalsType.make_distances i domain multipass pass
  = InternalsType.make_distances i domain multipass' pass'.
Proof.
  intros Hmode. unfold InternalsType.make_distances.
  repeat case_bool_decide; try reflexivity; lia.
Qed.

Lemma num_passes_one (i : InternalsType.t Float) (multipass : bool) :
  InternalsType.clip_mode i <= 2 -> InternalsType.num_passes i multipass = 1%Z.
Proof.
  intros Hmode. unfold InternalsType.num_passes.
  repeat case_bool_decide; try reflexivity; lia.
Qed.

(** X21. For the box, the sphere and the single plane (shape modes up to 2)
    the multi-plane option has no effect: [execute] returns the same
    collection whether the option is set or cleared. *)
Theorem multi_plane_option_ignored (c : Clip.t Float) (value : bool)
    (collection : Collection Float) :
  InternalsType.clip_mode (Clip.m_internals c) <= 2 ->
  Clip.execute ClipField_execute (Clip.SetMultiPlane value c) collection
  = Clip.execute ClipField_execute c collection.
Proof.
  intros Hmode.
  assert (Hdom : forall dom,
            Clip.clip_domain ClipField_execute (Clip.SetMultiPlane value c) dom
            = Clip.clip_domain ClipField_execute c dom).
  { intros dom. unfold Clip.clip_domain.
    cbn [Clip.m_internals Clip.m_do_multi_plane Clip.SetMultiPlane].
    rewrite !(num_passes_one _ _ Hmode). simpl.
    unfold Clip.pass_body, Clip.make_clip_field.
    cbn [Clip.m_internals Clip.m_do_multi_plane Clip.SetMultiPlane].
    rewrite (make_distances_ignores_multipass _ dom value (Clip.m_do_multi_plane c) 0 0 Hmode).
    reflexivity. }
  unfold Clip.execute.
  generalize (Some (@nil (DataSet Float))) as acc.
  induction collection as [|dom doms IH]; intros acc; simpl; [reflexivity|].
  rewrite Hdom. apply IH.
Qed.
End MultiPlaneOption.

(** ** The further properties on concrete inputs *)

Lemma evaluator_fields_follow_mesh_witness :
  MultiPlaneDistance.new
    (InternalsType.plane_origin (Clip.m_internals Example.two_planes))
    (InternalsType.plane_normal (Clip.m_internals Example.two_planes)) 2
  = Some FloatInputs.two_plane_evaluator /\
  same_layout Example.cube_mesh
    (BoxDistance.call (BoxDistance.new Example.empty_bounds) Example.cube_mesh) /\
  exists fld,
    MultiPlaneDistance.call FloatInputs.two_plane_evaluator Example.cube_mesh = Some fld /\
    same_layout Example.cube_mesh fld.
Proof.
  assert (Hnew : MultiPlaneDistance.new
                   (InternalsType.plane_origin (Clip.m_internals Example.two_planes))
                   (InternalsType.plane_normal (Clip.m_internals Example.two_planes)) 2
                 = Some FloatInputs.two_plane_evaluator)
    by (apply MultiPlaneDistance_new_ok; lia).
  split; [exact Hnew|].
  destruct (evaluator_fields_follow_mesh Example.half 1%float Example.half Example.half
              Example.empty_bounds _ _ 2 FloatInputs.two_plane_evaluator
              Example.cube_mesh Hnew)
    as (_ & _ & [Hbox _] & fld & Hcall & Hlayout & _).
  split; [exact Hbox|]. exists fld. split; assumption.
Defined.

Lemma normalize_unit_and_idempotent_witness :
  magnitude (normalize ExactInputs.three_four) = 1%R /\
  normalize ExactInputs.zero = ExactInputs.zero.
Proof.
  split.
  - apply (proj1 (normalize_unit_and_idempotent ExactInputs.three_four)).
    intros [= H3 _]. lra.
  - apply (proj1 (proj2 (normalize_unit_and_idempotent ExactInputs.zero))).
    reflexivity.
Defined.

Lemma single_plane_ignores_normal_length_witness :
  (0 < 2)%R /\
  SinglePlaneDistance.new ExactInputs.zero (vec_scale 2 ExactInputs.axis_z)
  = SinglePlaneDistance.new ExactInputs.zero ExactInputs.axis_z.
Proof.
  assert (Hk : (0 < 2)%R) by lra.
  split; [exact Hk|].
  exact (proj1 (single_plane_ignores_normal_length ExactInputs.zero ExactInputs.axis_z 2
                  ExactInputs.two_points Hk)).
Defined.

Lemma single_plane_value_along_normal_witness :
  ExactInputs.axis_z <> ExactInputs.zero /\
  single_plane_value (ExactInputs.three_four, ExactInputs.axis_z)
    (vec_add ExactInputs.three_four (vec_scale 7 (normalize ExactInputs.axis_z))) = 7%R.
Proof.
  assert (Hn : ExactInputs.axis_z <> ExactInputs.zero) by (intros [= H1]; lra).
  split; [exact Hn|].
  exact (proj2 (single_plane_value_along_normal ExactInputs.three_four
                  ExactInputs.axis_z 7 Hn)).
Defined.

Lemma sphere_value_is_distance_witness :
  (SphereDistance.point ExactInputs.zero ExactInputs.three_four < 6)%R <->
  (sq_dist ExactInputs.zero ExactInputs.three_four < 6 * 6)%R.
Proof.
  apply (proj2 (proj2 (proj2 (sphere_value_is_distance ExactInputs.zero
                                ExactInputs.three_four 6)))).
  lra.
Defined.

Lemma box_value_single_violated_face_witness :
  BoxDistance.point ExactExample.unit_box ExactExample.beyond = (2 - 1)%R.
Proof.
  apply (box_value_single_violated_face ExactExample.unit_box ExactExample.beyond 1).
  - reflexivity.
  - lra.
  - intros j e Hj.
    destruct j as [|[|[|[|[|[|j]]]]]]; simpl; intros [= <-]; try lra.
    contradiction.
Defined.

Lemma fused_planes_mark_union_witness :
  (1 <= 2 <= 3)%Z /\
  exists distcalc fld,
    MultiPlaneDistance.new ExactInputs.origins ExactInputs.normals 2 = Some distcalc /\
    MultiPlaneDistance.call distcalc ExactInputs.two_points = Some fld /\
    Forall2 (fun pt v =>
               (v < 0)%R <->
               Exists (fun plane => (single_plane_value plane pt < 0)%R)
                      (take (Z.to_nat 2)
                            (planes_of ExactInputs.origins ExactInputs.normals)))
            (m_values (get_dof_data ExactInputs.two_points))
            (m_values (field_dof_data fld)).
Proof.
  split; [lia|].
  apply (fused_planes_mark_union ExactInputs.origins ExactInputs.normals 2
           ExactInputs.two_points).
  lia.
Defined.

Lemma shape_setters_discard_previous_witness :
  (1 < Z.to_nat (InternalsType.num_passes
                   (InternalsType.Set2PlaneClip Example.half Example.half
                      Example.half Example.half
                      (InternalsType.new Example.empty_bounds)) true))%nat /\
  InternalsType.make_distances
    (InternalsType.Set2PlaneClip Example.half Example.half Example.half Example.half
       (InternalsType.new Example.empty_bounds))
    Example.cube true 1
  = InternalsType.make_distances
      (InternalsType.Set2PlaneClip Example.half Example.half Example.half Example.half
         (Clip.m_internals Example.two_planes))
      Example.cube true 1.
Proof.
  assert (Hpass : (1 < Z.to_nat (InternalsType.num_passes
                     (InternalsType.Set2PlaneClip Example.half Example.half
                        Example.half Example.half
                        (InternalsType.new Example.empty_bounds)) true))%nat)
    by (vm_compute; lia).
  split; [exact Hpass|].
  exact (proj2 (proj2 (proj2 (proj2
           (shape_setters_discard_previous
              (InternalsType.new Example.empty_bounds)
              (Clip.m_internals Example.two_planes)
              Example.cube true 1 Example.empty_bounds Example.half 1%float
              Example.half Example.half Example.half Example.half
              Example.half Example.half)))) Hpass).
Defined.

Lemma clip_field_of_every_pass_witness :
  reachable Example.two_planes /\
  (1 < Z.to_nat (InternalsType.num_passes (Clip.m_internals Example.two_planes)
                   (Clip.m_do_multi_plane Example.two_planes)))%nat /\
  exists f clip_value,
    Clip.make_clip_field Example.two_planes (mkDataSet (Some Example.cube_mesh) ∅) 1
    = Some (f, clip_value) /\
    field_name f = Clip.field_name /\
    field_mesh_name f = mesh_name Example.cube_mesh /\
    same_layout Example.cube_mesh f.
Proof.
  assert (Hpass : (1 < Z.to_nat (InternalsType.num_passes
                     (Clip.m_internals Example.two_planes)
                     (Clip.m_do_multi_plane Example.two_planes)))%nat)
    by (vm_compute; lia).
  split; [exact two_planes_reachable|]. split; [exact Hpass|].
  exact (clip_field_of_every_pass Example.two_planes Example.cube_mesh ∅ 1
           two_planes_reachable Hpass).
Defined.

Lemma execute_without_meshes_witness :
  Forall (fun dom : DataSet float => ds_mesh dom = None)
         [Example.meshless; Example.meshless] /\
  Clip.execute Example.point_cloud_clip Example.two_planes
               [Example.meshless; Example.meshless] = Some [].
Proof.
  assert (Hnone : Forall (fun dom : DataSet float => ds_mesh dom = None)
                         [Example.meshless; Example.meshless])
    by (repeat constructor).
  split; [exact Hnone|].
  exact (execute_without_meshes Example.point_cloud_clip Example.two_planes _ Hnone).
Defined.

Lemma single_pass_agrees_with_chained_witness :
  InternalsType.num_passes (Clip.m_internals (Clip.new Example.empty_bounds))
                           (Clip.m_do_multi_plane (Clip.new Example.empty_bounds)) = 1 /\
  Clip.clip_domain Example.point_cloud_clip (Clip.new Example.empty_bounds) Example.cube
  = spec_clip_domain Example.point_cloud_clip (Clip.new Example.empty_bounds) Example.cube.
Proof.
  split; [reflexivity|].
  apply (single_pass_agrees_with_chained Example.point_cloud_clip
           (Clip.new Example.empty_bounds) Example.cube).
  reflexivity.
Defined.


Lemma multi_plane_option_ignored_witness :
  InternalsType.clip_mode (Clip.m_internals (Clip.new Example.empty_bounds)) <= 2 /\
  Clip.execute Example.point_cloud_clip
               (Clip.SetMultiPlane true (Clip.new Example.empty_bounds)) [Example.cube]
  = Clip.execute Example.point_cloud_clip (Clip.new Example.empty_bounds) [Example.cube].
Proof.
  assert (Hmode : InternalsType.clip_mode
                    (Clip.m_internals (Clip.new Example.empty_bounds)) <= 2)
    by (simpl; lia).
  split; [exact Hmode|].
  exact (multi_plane_option_ignored Example.point_cloud_clip
           (Clip.new Example.empty_bounds) true [Example.cube] Hmode).
Defined.
